(** * DAG endpoints of the REST API: a shallow embedding

    Source: [airflow/api_connexion/endpoints/dag_endpoint.py].

    [get_dag], [get_dags], [patch_dag] and [delete_dag] are translated line
    by line.  The SQLAlchemy query they build is kept as a value (its
    criteria in the order in which [filter] added them, its ordering,
    offset and limit) and evaluated by [Query.all] against the rows the
    session sees.  Python exceptions are the [Raise] case of [result]; the
    session is threaded through the monad [M].

    Collaborators the module imports are parameters of the endpoints: the
    security manager's [get_accessible_dag_ids], the schema's [load], and
    the deletion routine shared with the web UI.  [limit] and [offset]
    arrive validated ([check_limit], the API's parameter checks) and are
    natural numbers. *)

From Stdlib Require Import Ascii String.
From stdpp Require Import base decidable list sorting strings gmap.

Local Open Scope string_scope.

(** ** Python values and exceptions *)

(** The values a deserialised document can hold under a key. *)
Inductive value : Type :=
  | VNone
  | VBool (b : bool)
  | VInt (n : Z)
  | VStr (s : string).

Global Instance value_eq_dec : EqDecision value.
Proof. solve_decision. Defined.

(** Exception classes that reach or leave the endpoints.  [NotFound],
    [BadRequest] and [AlreadyExists] are the API errors of
    [airflow.api_connexion.exceptions]; [DagNotFound] and [AirflowException]
    are the domain errors of [airflow.exceptions]; [ValidationError] is
    marshmallow's; [KeyError] is the built-in raised by [d[k]] on a missing
    key; [MultipleResultsFound] is what [one_or_none] raises on two rows. *)
Inductive exn : Type :=
  | NotFound (title : string) (detail : option string)
  | BadRequest (title : option string) (detail : string)
  | AlreadyExists (detail : string)
  | DagNotFound (msg : string)
  | AirflowException (msg : string)
  | ValidationError (messages : string)
  | KeyError (key : string)
  | MultipleResultsFound.

(** [DagNotFound] derives from [AirflowException]: an
    [except AirflowException] clause catches both. *)
Definition isinstance_AirflowException (e : exn) : bool :=
  match e with
  | DagNotFound _ | AirflowException _ => true
  | _ => false
  end.

Definition isinstance_DagNotFound (e : exn) : bool :=
  match e with
  | DagNotFound _ => true
  | _ => false
  end.

(** The three error kinds the API classifies. *)
Definition classified (e : exn) : bool :=
  match e with
  | NotFound _ _ | BadRequest _ _ | AlreadyExists _ => true
  | _ => false
  end.

Inductive result (A : Type) : Type :=
  | Return (a : A)
  | Raise (e : exn).
Arguments Return {A} a.
Arguments Raise {A} e.

(** ** Data model *)

Record DagTag : Type := mkDagTag {
  name : string;
  tag_dag_id : string
}.

Record DagModel : Type := mkDagModel {
  dag_id : string;
  is_paused : value;
  is_subdag : bool;
  is_active : bool;
  fileloc : string;
  owners : string;
  tags : list DagTag
}.

Record TaskInstance : Type := mkTaskInstance {
  ti_dag_id : string;
  ti_task_id : string;
  state : string
}.

Global Instance DagTag_eq_dec : EqDecision DagTag.
Proof. solve_decision. Defined.
Global Instance DagModel_eq_dec : EqDecision DagModel.
Proof. solve_decision. Defined.
Global Instance TaskInstance_eq_dec : EqDecision TaskInstance.
Proof. solve_decision. Defined.

(** [setattr(dag, 'is_paused', v)]: the one attribute the module assigns. *)
Definition setattr_is_paused (d : DagModel) (v : value) : DagModel :=
  {| dag_id := dag_id d; is_paused := v; is_subdag := is_subdag d;
     is_active := is_active d; fileloc := fileloc d; owners := owners d;
     tags := tags d |}.

(** The tables of the metadata store that the module reads or writes. *)
Record Database : Type := mkDatabase {
  dag : list DagModel;
  task_instance : list TaskInstance
}.

(** A session: the rows as the session sees them ([view], attribute
    assignments included) and the rows as of the last commit
    ([persisted]). *)
Record Session : Type := mkSession {
  view : Database;
  persisted : Database
}.

Definition commit (s : Session) : Session :=
  {| view := view s; persisted := view s |}.

(** Assigning an attribute of the loaded object [DagModel] with primary
    key [k] changes the row of that key in the session's view. *)
Definition assign_is_paused (k : string) (v : value) (s : Session) : Session :=
  {| view := {| dag := (λ d, if decide (dag_id d = k)
                             then setattr_is_paused d v else d) <$> dag (view s);
                task_instance := task_instance (view s) |};
     persisted := persisted s |}.

(** ** SQL [LIKE] and [ILIKE] *)

Definition lower_ascii (c : ascii) : ascii :=
  let n := Ascii.nat_of_ascii c in
  if (65 <=? n)%nat && (n <=? 90)%nat then Ascii.ascii_of_nat (n + 32) else c.

Fixpoint chars (s : string) : list ascii :=
  match s with
  | EmptyString => []
  | String c s' => c :: chars s'
  end.

(** [like p s]: [%] matches any run of characters, [_] exactly one, any
    other character itself (no [ESCAPE] clause is given by the caller). *)
Fixpoint like (p : list ascii) (s : list ascii) {struct p} : bool :=
  match p with
  | [] => match s with [] => true | _ => false end
  | c :: p' =>
      if decide (c = "%"%char) then
        (fix star (s : list ascii) : bool :=
           like p' s || match s with [] => false | _ :: s' => star s' end) s
      else if decide (c = "_"%char) then
        match s with [] => false | _ :: s' => like p' s' end
      else
        match s with [] => false | d :: s' => bool_decide (c = d) && like p' s' end
  end.

(** [ILIKE]: [LIKE] on both sides in lower case (letters [A] to [Z]). *)
Definition ilike (s pattern : string) : bool :=
  like (lower_ascii <$> chars pattern) (lower_ascii <$> chars s).

(** ** Queries over [DagModel] *)

(** The column expressions the module writes. *)
#[warnings="-register-all"]
Inductive clause : Type :=
  | col_is_subdag                      (* DagModel.is_subdag *)
  | col_is_active                      (* DagModel.is_active *)
  | not_ (c : clause)                  (* ~c *)
  | dag_id_eq (k : string)             (* DagModel.dag_id == k *)
  | dag_id_ilike (pattern : string)    (* DagModel.dag_id.ilike(pattern) *)
  | dag_id_in_ (ids : gset string)     (* DagModel.dag_id.in_(ids) *)
  | tags_any_name_eq (tag : string)    (* DagModel.tags.any(DagTag.name == tag) *)
  | or_ (cs : list clause).            (* or_( *cs ) *)

Fixpoint holds (c : clause) (d : DagModel) : bool :=
  match c with
  | col_is_subdag => is_subdag d
  | col_is_active => is_active d
  | not_ c' => negb (holds c' d)
  | dag_id_eq k => bool_decide (dag_id d = k)
  | dag_id_ilike pattern => ilike (dag_id d) pattern
  | dag_id_in_ ids => bool_decide (dag_id d ∈ ids)
  | tags_any_name_eq tag => existsb (λ t, bool_decide (name t = tag)) (tags d)
  | or_ cs => existsb (λ c', holds c' d) cs
  end.

(** [ORDER BY dag.dag_id], strings compared character by character by
    their codes. *)
Definition dag_id_le (a b : DagModel) : Prop := String.le (dag_id a) (dag_id b).

Global Instance dag_id_le_dec : RelDecision dag_id_le.
Proof. intros a b. unfold dag_id_le. apply _. Defined.

(** ** Sessions as state: the monad of the endpoint bodies

    Every endpoint receives the session ([provide_session]) and either
    returns a payload or raises; [M] threads the session and the
    exception. *)

Definition M (A : Type) : Type := Session → result A * Session.

Global Instance M_ret : MRet M := λ A a s, (Return a, s).

Global Instance M_bind : MBind M := λ A B f m s,
  match m s with
  | (Return a, s') => f a s'
  | (Raise e, s') => (Raise e, s')
  end.

Definition raise {A : Type} (e : exn) : M A := λ s, (Raise e, s).

Definition get_session : M Session := λ s, (Return s, s).

Definition modify_session (f : Session → Session) : M unit := λ s, (Return tt, f s).

(** [try: m except ...: handler e]; a handler that does not catch [e]
    re-raises it. *)
Definition try_except {A : Type} (m : M A) (handler : exn → M A) : M A := λ s,
  match m s with
  | (Return a, s') => (Return a, s')
  | (Raise e, s') => handler e s'
  end.

(** [d[k]] on a dict. *)
Definition getitem (d : gmap string value) (k : string) : M value :=
  match d !! k with
  | Some v => mret v
  | None => raise (KeyError k)
  end.

Module Query.

Record t : Type := mk {
  whereclause : list clause;     (* criteria, in the order they were added *)
  ordered : bool;                (* order_by(DagModel.dag_id) *)
  offset_of : option nat;
  limit_of : option nat
}.

(** [session.query(DagModel)] *)
Definition query_DagModel : t :=
  {| whereclause := []; ordered := false; offset_of := None; limit_of := None |}.

Definition filter (q : t) (cs : list clause) : t :=
  {| whereclause := whereclause q ++ cs; ordered := ordered q;
     offset_of := offset_of q; limit_of := limit_of q |}.

Definition order_by_dag_id (q : t) : t :=
  {| whereclause := whereclause q; ordered := true;
     offset_of := offset_of q; limit_of := limit_of q |}.

Definition offset (q : t) (n : nat) : t :=
  {| whereclause := whereclause q; ordered := ordered q;
     offset_of := Some n; limit_of := limit_of q |}.

Definition limit (q : t) (n : nat) : t :=
  {| whereclause := whereclause q; ordered := ordered q;
     offset_of := offset_of q; limit_of := Some n |}.

(** The criteria restrict the rows one after the other, in the order
    they were added. *)
Definition restrict (cs : list clause) (rows : list DagModel) : list DagModel :=
  foldl (λ acc c, base.filter (λ d, holds c d) acc) rows cs.

(** The rows a query selects from a table. *)
Definition rows (q : t) (table : list DagModel) : list DagModel :=
  let selected := restrict (whereclause q) table in
  let sorted := if ordered q then merge_sort dag_id_le selected else selected in
  let skipped := match offset_of q with Some n => drop n sorted | None => sorted end in
  match limit_of q with Some n => take n skipped | None => skipped end.

Definition all (q : t) : M (list DagModel) :=
  session ← get_session; mret (rows q (dag (view session))).

Definition one_or_none (q : t) : M (option DagModel) :=
  found ← all q;
  match found with
  | [] => mret None
  | [d] => mret (Some d)
  | _ => raise MultipleResultsFound
  end.

End Query.

(** ** Payloads *)

Record DAGCollection : Type := mkDAGCollection {
  dags : list DagModel;
  total_entries : nat
}.

(** What an endpoint returns: the argument handed to the schema's [dump],
    or [(NoContent, status)]. *)
Inductive APIResponse : Type :=
  | dag_schema_dump (d : DagModel)
  | dags_collection_schema_dump (c : DAGCollection)
  | NoContent (status : nat).

(** ** The endpoints *)

Section endpoints.

(** [g.user] and the security manager's
    [current_app.appbuilder.sm.get_accessible_dag_ids]. *)
Context {User : Type}.
Variable get_accessible_dag_ids : User → gset string.

(** [request.json] and [dag_schema.load]: a validation failure carries
    the messages, a success the deserialised document. *)
Context {Json : Type}.
Variable dag_schema_load : Json → string + gmap string value.

(** [airflow.api.common.experimental.delete_dag.delete_dag], the
    deletion routine shared with the web UI; what it returns is not used. *)
Context {Deleted : Type}.
Variable delete_dag_module_delete_dag : string → M Deleted.

Definition get_dag (dag_id' : string) : M APIResponse :=
  dag ← Query.one_or_none
           (Query.filter Query.query_DagModel [dag_id_eq dag_id']);
  match dag with
  | None =>
      raise (NotFound "DAG not found"
               (Some ("The DAG with dag_id: " ++ dag_id' ++ " was not found")))
  | Some dag => mret (dag_schema_dump dag)
  end.

(** Lines 77 to 90 of [get_dags]: the query before counting and paging. *)
Definition get_dags_query (tags : option (list string))
    (dag_id_pattern : option string) (only_active : bool)
    (user : User) : Query.t :=
  let dags_query :=
    if only_active
    then Query.filter Query.query_DagModel [not_ col_is_subdag; col_is_active]
    else Query.filter Query.query_DagModel [not_ col_is_subdag] in
  let dags_query :=
    match dag_id_pattern with
    | Some p =>
        if decide (p = "") then dags_query
        else Query.filter dags_query [dag_id_ilike ("%" ++ p ++ "%")]
    | None => dags_query
    end in
  let readable_dags := get_accessible_dag_ids user in
  let dags_query := Query.filter dags_query [dag_id_in_ readable_dags] in
  match tags with
  | Some ((_ :: _) as tags) =>
      let cond := (λ tag, tags_any_name_eq tag) <$> tags in
      Query.filter dags_query [or_ cond]
  | _ => dags_query
  end.

Definition get_dags (limit offset : nat) (tags : option (list string))
    (dag_id_pattern : option string) (only_active : bool)
    (user : User) : M APIResponse :=
  let dags_query := get_dags_query tags dag_id_pattern only_active user in
  matched ← Query.all dags_query;
  let total_entries := length matched in
  dags ← Query.all
           (Query.limit (Query.offset (Query.order_by_dag_id dags_query) offset) limit);
  mret (dags_collection_schema_dump
          {| dags := dags; total_entries := total_entries |}).

Definition only_is_paused : string :=
  "Only `is_paused` field can be updated through the REST API".

Definition patch_dag (dag_id' : string) (update_mask : option (list string))
    (request_json : Json) : M APIResponse :=
  dag ← Query.one_or_none
           (Query.filter Query.query_DagModel [dag_id_eq dag_id']);
  match dag with
  | None => raise (NotFound ("Dag with id: '" ++ dag_id' ++ "' not found") None)
  | Some dag =>
      patch_body ←
        match dag_schema_load request_json with
        | inl messages => raise (BadRequest (Some "Invalid Dag schema") messages)
        | inr patch_body => mret patch_body
        end;
      patch_body ←
        match update_mask with
        | Some ((field :: _) as update_mask) =>
            let patch_body_ : gmap string value := ∅ in
            if decide (1 < length update_mask) then
              raise (BadRequest None only_is_paused)
            else
              let update_mask := field in
              if decide (update_mask ≠ "is_paused") then
                raise (BadRequest None only_is_paused)
              else
                v ← getitem patch_body update_mask;
                mret (<[update_mask := v]> patch_body_)
        | _ => mret patch_body
        end;
      v ← getitem patch_body "is_paused";
      modify_session (assign_is_paused (dag_id dag) v);;
      modify_session commit;;
      mret (dag_schema_dump (setattr_is_paused dag v))
  end.

Definition delete_dag (dag_id' : string) : M APIResponse :=
  try_except (delete_dag_module_delete_dag dag_id')
    (λ e,
       if isinstance_DagNotFound e then
         raise (NotFound ("Dag with id: '" ++ dag_id' ++ "' not found") None)
       else if isinstance_AirflowException e then
         raise (AlreadyExists
                  ("Task instances of dag with id: '" ++ dag_id' ++ "' are still running"))
       else raise e);;
  mret (NoContent 204).

End endpoints.

(** ** The filters of a listing, record by record

    The combined filter as the specification words it: subdags are
    excluded; inactive records too when [only_active]; the identifier
    matches the id pattern when one is given; the identifier is accessible;
    and, when tags are requested, the record carries at least one of them. *)

Definition has_tag (d : DagModel) (tag : string) : Prop := tag ∈ name <$> tags d.

Global Instance has_tag_dec d tag : Decision (has_tag d tag).
Proof. unfold has_tag. apply _. Defined.

Definition satisfies_filters (tags : option (list string))
    (dag_id_pattern : option string) (only_active : bool)
    (accessible : gset string) (d : DagModel) : bool :=
  negb (is_subdag d)
  && (if only_active then is_active d else true)
  && match dag_id_pattern with
     | Some p => ilike (dag_id d) ("%" ++ p ++ "%")
     | None => true
     end
  && bool_decide (dag_id d ∈ accessible)
  && match tags with
     | Some ((_ :: _) as requested) =>
         bool_decide (Exists (has_tag d) requested)
     | _ => true
     end.

(** The identifier contains the pattern, letter case apart. *)
Definition contains_ci (s pattern : string) : Prop :=
  ∃ pre post,
    lower_ascii <$> chars s = (pre ++ (lower_ascii <$> chars pattern) ++ post)%list.

(** A pattern without the wildcards [%] and [_]. *)
Definition literal (p : list ascii) : Prop :=
  Forall (λ c, c ≠ "%"%char ∧ c ≠ "_"%char) p.

(** The criteria of a listing by origin: line 78 or 80, line 83, line 90. *)
Definition base_clauses (only_active : bool) : list clause :=
  if only_active then [not_ col_is_subdag; col_is_active] else [not_ col_is_subdag].

Definition pattern_clauses (dag_id_pattern : option string) : list clause :=
  match dag_id_pattern with
  | Some p => if decide (p = "") then [] else [dag_id_ilike ("%" ++ p ++ "%")]
  | None => []
  end.

Definition tags_clauses (tags : option (list string)) : list clause :=
  match tags with
  | Some ((_ :: _) as requested) => [or_ (tags_any_name_eq <$> requested)]
  | _ => []
  end.

(** The session holds exactly one [DagModel] row of key [k], the row [d]. *)
Definition stored (s : Session) (k : string) (d : DagModel) : Prop :=
  filter (λ x, dag_id x = k) (dag (view s)) = [d].

(** Two rows that agree on every column but [is_paused]. *)
Definition same_but_is_paused (a b : DagModel) : Prop :=
  dag_id a = dag_id b ∧ is_subdag a = is_subdag b ∧ is_active a = is_active b
  ∧ fileloc a = fileloc b ∧ owners a = owners b ∧ tags a = tags b.

(** ** The shared deletion routine *)

Definition running (k : string) (ti : TaskInstance) : Prop :=
  ti_dag_id ti = k ∧ state ti = "running".

Global Instance running_dec k ti : Decision (running k ti).
Proof. unfold running. apply _. Defined.

(** Modelled from the spec: the shared deletion routine
    [airflow.api.common.experimental.delete_dag.delete_dag], which this
    module only calls.  An absent identifier is the domain signal "DAG not
    found"; task instances of the DAG still in progress are the domain
    signal "active/running dependents exist", and the deletion is refused;
    otherwise the record goes together with its dependent task-instance
    rows, all or nothing. *)
Definition spec_delete_dag (dag_id' : string) : M unit := λ session,
  let db := view session in
  if decide (filter (λ d, dag_id d = dag_id') (dag db) = []) then
    (Raise (DagNotFound ("Dag id " ++ dag_id' ++ " not found")), session)
  else if decide (Exists (running dag_id') (task_instance db)) then
    (Raise (AirflowException "TaskInstances still running"), session)
  else
    let db' := {| dag := filter (λ d, dag_id d ≠ dag_id') (dag db);
                  task_instance :=
                    filter (λ ti, ti_dag_id ti ≠ dag_id') (task_instance db) |} in
    (Return tt, {| view := db'; persisted := db' |}).

(** ** A small registry used in the examples *)

Definition example_alpha : DagModel :=
  {| dag_id := "alpha"; is_paused := VBool false; is_subdag := false;
     is_active := true; fileloc := "/dags/alpha.py"; owners := "data";
     tags := [ {| name := "etl"; tag_dag_id := "alpha" |} ] |}.

Definition example_beta : DagModel :=
  {| dag_id := "beta"; is_paused := VBool false; is_subdag := false;
     is_active := true; fileloc := "/dags/beta.py"; owners := "ml";
     tags := [ {| name := "ml"; tag_dag_id := "beta" |};
               {| name := "daily"; tag_dag_id := "beta" |} ] |}.

Definition example_gamma : DagModel :=
  {| dag_id := "gamma"; is_paused := VBool true; is_subdag := false;
     is_active := false; fileloc := "/dags/gamma.py"; owners := "ops";
     tags := [] |}.

Definition example_db : Database :=
  {| dag := [example_gamma; example_alpha; example_beta];
     task_instance := [ {| ti_dag_id := "beta"; ti_task_id := "train";
                           state := "running" |};
                        {| ti_dag_id := "alpha"; ti_task_id := "load";
                           state := "success" |} ] |}.

Definition example_session : Session :=
  {| view := example_db; persisted := example_db |}.

(** A principal that may read [alpha] and [beta] only. *)
Definition example_accessible (user : unit) : gset string := {[ "alpha"; "beta" ]}.

(** A schema that accepts every document as it is. *)
Definition example_load (json : gmap string value) : string + gmap string value :=
  inr json.

(** The same registry with its rows stored in another order. *)
Definition example_session_reordered : Session :=
  {| view := {| dag := [example_beta; example_gamma; example_alpha];
                task_instance := task_instance example_db |};
     persisted := example_db |}.

(** The accessibility criterion is the first one a query applies. *)
Definition accessibility_applied_first (q : Query.t) (ids : gset string) : Prop :=
  ∃ rest, Query.whereclause q = dag_id_in_ ids :: rest.

(** ** Details from the DAG bag *)

(** What [get_dag_details] returns: the argument handed to
    [dag_detail_schema.dump]. *)
Inductive DetailResponse (DAG : Type) : Type :=
  | dag_detail_schema_dump (dag : DAG).
Arguments dag_detail_schema_dump {DAG} dag.

Section details.

(** [airflow.DAG] and [current_app.dag_bag.get_dag]: the parsed workflow
    of an identifier, or [None]. *)
Context {DAG : Type}.
Variable dag_bag_get_dag : string → option DAG.

Definition get_dag_details (dag_id' : string) : result (DetailResponse DAG) :=
  let dag := dag_bag_get_dag dag_id' in
  match dag with
  | None =>
      Raise (NotFound "DAG not found"
               (Some ("The DAG with dag_id: " ++ dag_id' ++ " was not found")))
  | Some dag => Return (dag_detail_schema_dump dag)
  end.

End details.

(** A bag that has parsed [beta] only; the parsed workflow is stood for by
    the path of its file. *)
Definition example_bag (dag_id' : string) : option string :=
  if decide (dag_id' = "beta") then Some "/dags/beta.py" else None.

(** The row function of [assign_is_paused]. *)
Definition paused_as (k : string) (v : value) (d : DagModel) : DagModel :=
  if decide (dag_id d = k) then setattr_is_paused d v else d.

(** A principal without any accessible identifier. *)
Definition example_no_access (user : unit) : gset string := ∅.

(** A schema that rejects a document whose [is_paused] is no boolean. *)
Definition example_strict_load (json : gmap string value)
    : string + gmap string value :=
  match json !! "is_paused" with
  | Some (VBool _) | None => inr json
  | Some _ => inl "{'is_paused': ['Not a valid boolean.']}"
  end.

(** A deletion routine that fails on the store itself. *)
Definition example_broken_routine (dag_id' : string) : M unit :=
  raise MultipleResultsFound.

(** * Properties *)

(** ** [ILIKE] with the empty pattern *)

Lemma like_percent (s : list ascii) : like ["%"%char] s = true.
Proof.
  induction s as [|a s IH]; [reflexivity|].
  change (like ["%"%char] (a :: s)) with (like [] (a :: s) || like ["%"%char] s).
  by rewrite IH, orb_true_r.
Qed.

Lemma ilike_percent_percent (s : string) : ilike s "%%" = true.
Proof.
  unfold ilike.
  change (lower_ascii <$> chars "%%") with ["%"%char; "%"%char].
  generalize (lower_ascii <$> chars s). intros l.
  destruct l as [|a l]; [reflexivity|].
  change (like ["%"%char; "%"%char] (a :: l))
    with (like ["%"%char] (a :: l) || like ["%"%char; "%"%char] l).
  by rewrite like_percent.
Qed.

(** ** [ILIKE '%p%'] on a pattern without wildcards is containment *)

Lemma like_star p s :
  like ("%"%char :: p) s = true ↔ ∃ k, like p (drop k s) = true.
Proof.
  induction s as [|a s IH].
  - change (like ("%"%char :: p) []) with (like p [] || false).
    rewrite orb_false_r. split; [by exists 0|]. intros [k Hk]. by rewrite drop_nil in Hk.
  - change (like ("%"%char :: p) (a :: s))
      with (like p (a :: s) || like ("%"%char :: p) s).
    rewrite orb_true_iff, IH. split.
    + intros [H|[k Hk]]; [by exists 0|by exists (S k)].
    + intros [[|k] Hk]; [by left|right; by exists k].
Qed.

Lemma like_literal p rest s :
  literal p →
  like (p ++ rest) s = true ↔ ∃ s', s = (p ++ s')%list ∧ like rest s' = true.
Proof.
  intros Hp. revert s. induction Hp as [|c p [Hc1 Hc2] Hp IH]; intros s.
  - simpl. split; [by exists s|]. by intros (s' & -> & ?).
  - rewrite <-app_comm_cons.
    assert (like (c :: p ++ rest) s
            = match s with
              | [] => false
              | d :: s' => bool_decide (c = d) && like (p ++ rest) s'
              end) as ->.
    { simpl. destruct (decide (c = "%"%char)); [done|].
      by destruct (decide (c = "_"%char)). }
    destruct s as [|d s]; [split; [done|by intros (s' & ? & _)]|].
    rewrite andb_true_iff, IH, bool_decide_eq_true. split.
    + intros (-> & s' & -> & Hs'). by exists s'.
    + intros (s' & Heq & Hs'). simplify_eq/=. eauto.
Qed.

Lemma chars_app s1 s2 : chars (s1 ++ s2) = (chars s1 ++ chars s2)%list.
Proof. induction s1 as [|c s1 IH]; simpl; by rewrite ?IH. Qed.

Lemma lower_ascii_wildcard c :
  c ≠ "%"%char ∧ c ≠ "_"%char →
  lower_ascii c ≠ "%"%char ∧ lower_ascii c ≠ "_"%char.
Proof.
  destruct c as [[] [] [] [] [] [] [] []]; vm_compute; intros [? ?]; split; congruence.
Qed.

Lemma ilike_contains s p :
  literal (chars p) →
  ilike s ("%" ++ p ++ "%") = true ↔ contains_ci s p.
Proof.
  intros Hp. unfold ilike, contains_ci.
  rewrite !chars_app, !fmap_app.
  change (lower_ascii <$> chars "%") with ["%"%char].
  assert (literal (lower_ascii <$> chars p)) as Hlow.
  { unfold literal in *. rewrite Forall_fmap.
    eapply Forall_impl; [exact Hp|]. intros c. apply lower_ascii_wildcard. }
  generalize dependent (lower_ascii <$> chars p). intros lp Hlow.
  generalize (lower_ascii <$> chars s). intros ls.
  change (["%"%char] ++ lp ++ ["%"%char])%list with ("%"%char :: lp ++ ["%"%char])%list.
  rewrite like_star. split.
  - intros [k Hk]. apply like_literal in Hk as (post & Hdrop & _); [|done].
    exists (take k ls), post. by rewrite <-Hdrop, take_drop.
  - intros (pre & post & ->). exists (length pre).
    rewrite drop_app_length. apply like_literal; [done|].
    exists post. split; [done|apply like_percent].
Qed.

(** ** Evaluating criteria *)

Lemma restrict_cons c cs table :
  Query.restrict (c :: cs) table = Query.restrict cs (filter (λ d, holds c d) table).
Proof. reflexivity. Qed.

Lemma restrict_filter cs table :
  Query.restrict cs table = filter (λ d, Forall (λ c, holds c d) cs) table.
Proof.
  revert table. induction cs as [|c cs IH]; intros table.
  - simpl. induction table as [|d table IHt]; [done|].
    rewrite filter_cons_True by constructor. by rewrite <-IHt.
  - rewrite restrict_cons, IH, list_filter_filter.
    apply list_filter_iff. intros d. rewrite Forall_cons. tauto.
Qed.

Lemma elem_of_restrict cs table d :
  d ∈ Query.restrict cs table ↔ d ∈ table ∧ ∀ c, c ∈ cs → holds c d.
Proof. rewrite restrict_filter, list_elem_of_filter, Forall_forall. tauto. Qed.

Lemma holds_tags_any d tag : holds (tags_any_name_eq tag) d ↔ has_tag d tag.
Proof.
  unfold has_tag. simpl. rewrite existb_True, Exists_exists, list_elem_of_fmap.
  split.
  - intros (t & Ht & Hn). apply bool_decide_unpack in Hn. eauto.
  - intros (t & -> & Ht). exists t. split; [done|]. by apply bool_decide_pack.
Qed.

Lemma holds_or_tags d requested :
  holds (or_ (tags_any_name_eq <$> requested)) d ↔ Exists (has_tag d) requested.
Proof.
  simpl. induction requested as [|tag requested IH].
  - simpl. rewrite Exists_nil. done.
  - rewrite fmap_cons. cbn [existsb]. rewrite orb_True, Exists_cons, IH.
    by rewrite holds_tags_any.
Qed.

Section listing.

Context {User : Type}.
Variable get_accessible_dag_ids : User → gset string.

Lemma whereclause_get_dags_query tags dag_id_pattern only_active (user : User) :
  Query.whereclause
    (get_dags_query get_accessible_dag_ids tags dag_id_pattern only_active user)
  = (base_clauses only_active ++ pattern_clauses dag_id_pattern
     ++ dag_id_in_ (get_accessible_dag_ids user) :: tags_clauses tags)%list.
Proof.
  unfold get_dags_query, base_clauses, pattern_clauses, tags_clauses.
  destruct only_active, dag_id_pattern as [p|], tags as [[|tag requested]|];
    try destruct (decide (p = "")); reflexivity.
Qed.

Lemma holds_get_dags_query tags dag_id_pattern only_active (user : User) d :
  Forall (λ c, holds c d)
    (Query.whereclause
       (get_dags_query get_accessible_dag_ids tags dag_id_pattern only_active user))
  ↔ satisfies_filters tags dag_id_pattern only_active (get_accessible_dag_ids user) d.
Proof.
  rewrite whereclause_get_dags_query. unfold satisfies_filters.
  rewrite !Forall_app, Forall_cons, !andb_True, negb_True, bool_decide_spec.
  assert (Forall (λ c, holds c d) (base_clauses only_active)
          ↔ ¬ is_subdag d ∧ (if only_active then is_active d else true)) as ->.
  { unfold base_clauses. destruct only_active.
    - rewrite !Forall_cons, Forall_nil. simpl. rewrite negb_True. tauto.
    - rewrite Forall_singleton. simpl. rewrite negb_True. intuition. }
  assert (Forall (λ c, holds c d) (pattern_clauses dag_id_pattern)
          ↔ match dag_id_pattern with
            | Some p => ilike (dag_id d) ("%" ++ p ++ "%")
            | None => true
            end) as ->.
  { unfold pattern_clauses. destruct dag_id_pattern as [p|].
    - destruct (decide (p = "")) as [->|].
      + rewrite Forall_nil. change ("%" ++ "" ++ "%") with "%%".
        rewrite ilike_percent_percent. done.
      + by rewrite Forall_singleton.
    - rewrite Forall_nil. done. }
  assert (Forall (λ c, holds c d) (tags_clauses tags)
          ↔ match tags with
            | Some ((_ :: _) as requested) => bool_decide (Exists (has_tag d) requested)
            | _ => true
            end) as ->.
  { unfold tags_clauses. destruct tags as [[|tag requested]|].
    - rewrite Forall_nil. done.
    - rewrite Forall_singleton, holds_or_tags, bool_decide_spec. done.
    - rewrite Forall_nil. done. }
  destruct only_active, dag_id_pattern as [p|], tags as [[|tag requested]|];
    simpl; rewrite ?bool_decide_spec; tauto.
Qed.

Lemma rows_restrict tags dag_id_pattern only_active (user : User) table :
  Query.rows
    (get_dags_query get_accessible_dag_ids tags dag_id_pattern only_active user) table
  = Query.restrict
      (Query.whereclause
         (get_dags_query get_accessible_dag_ids tags dag_id_pattern only_active user))
      table.
Proof.
  unfold get_dags_query.
  destruct only_active, dag_id_pattern as [p|], tags as [[|tag requested]|];
    try destruct (decide (p = "")); reflexivity.
Qed.

Lemma rows_get_dags_query tags dag_id_pattern only_active (user : User) table :
  Query.rows
    (get_dags_query get_accessible_dag_ids tags dag_id_pattern only_active user) table
  = filter (λ d, satisfies_filters tags dag_id_pattern only_active
                   (get_accessible_dag_ids user) d) table.
Proof.
  rewrite rows_restrict, restrict_filter. apply list_filter_iff. intros d.
  apply holds_get_dags_query.
Qed.

(** [get_dags] in closed form: it never raises, leaves the session as it
    is, counts the matching rows and pages through them in [dag_id]
    order. *)
Lemma get_dags_eq limit offset tags dag_id_pattern only_active (user : User) s :
  get_dags get_accessible_dag_ids limit offset tags dag_id_pattern only_active user s
  = (Return (dags_collection_schema_dump
       {| dags :=
            take limit (drop offset (merge_sort dag_id_le
              (filter (λ d, satisfies_filters tags dag_id_pattern only_active
                              (get_accessible_dag_ids user) d) (dag (view s)))));
          total_entries :=
            length (filter (λ d, satisfies_filters tags dag_id_pattern only_active
                                   (get_accessible_dag_ids user) d) (dag (view s))) |}),
     s).
Proof.
  rewrite <-rows_get_dags_query.
  unfold get_dags, Query.all, get_session, mbind, M_bind, mret, M_ret. simpl.
  do 3 f_equal.
  unfold get_dags_query.
  destruct only_active, dag_id_pattern as [p|], tags as [[|tag requested]|];
    try destruct (decide (p = "")); reflexivity.
Qed.

End listing.

(** ** Ordering by [dag_id] *)

Global Instance dag_id_le_transitive : Transitive dag_id_le.
Proof. intros a b c. unfold dag_id_le. apply transitivity. Qed.

Global Instance dag_id_le_total : Total dag_id_le.
Proof. intros a b. unfold dag_id_le. apply total, _. Qed.

Lemma StronglySorted_drop {A} (R : relation A) n l :
  StronglySorted R l → StronglySorted R (drop n l).
Proof.
  intros Hl. revert n. induction Hl as [|x l Hl IH Hx]; intros [|n]; simpl;
    auto using StronglySorted.
Qed.

Lemma StronglySorted_take {A} (R : relation A) n l :
  StronglySorted R l → StronglySorted R (take n l).
Proof.
  intros Hl. revert n. induction Hl as [|x l Hl IH Hx]; intros [|n]; simpl;
    try constructor; auto.
  rewrite Forall_forall in Hx |- *. intros y Hy. apply Hx.
  by apply (subseteq_take n l).
Qed.

Lemma order_by_sorted l : StronglySorted dag_id_le (merge_sort dag_id_le l).
Proof. apply StronglySorted_merge_sort; apply _. Qed.

(** Rows with pairwise different keys are determined by their keys. *)
Lemma key_inj (table : list DagModel) x y :
  NoDup (dag_id <$> table) → x ∈ table → y ∈ table → dag_id x = dag_id y → x = y.
Proof.
  induction table as [|d table IH]; intros Hnd Hx Hy Hk; [by inv Hx|].
  rewrite fmap_cons in Hnd. apply NoDup_cons in Hnd as [Hd Hnd].
  apply elem_of_cons in Hx as [->|Hx]; apply elem_of_cons in Hy as [->|Hy]; auto.
  - destruct Hd. rewrite Hk. by apply list_elem_of_fmap_2.
  - destruct Hd. rewrite <-Hk. by apply list_elem_of_fmap_2.
Qed.

(** With pairwise different keys the ordered result does not depend on
    the order in which the table stores its rows. *)
Lemma order_by_unique (table l1 l2 : list DagModel) :
  NoDup (dag_id <$> table) → l1 ⊆ table → l1 ≡ₚ l2 →
  merge_sort dag_id_le l1 = merge_sort dag_id_le l2.
Proof.
  intros Hnd Hsub Hperm.
  apply (StronglySorted_unique_strong dag_id_le); try apply order_by_sorted.
  - intros x1 x2 Hx1 Hx2 H12 H21.
    rewrite merge_sort_Permutation in Hx1, Hx2. rewrite <-Hperm in Hx2.
    apply (key_inj table); auto.
    unfold dag_id_le in *. by apply (anti_symm String.le).
  - by rewrite !merge_sort_Permutation.
Qed.

Section listing_claims.

Context {User : Type}.
Variable get_accessible_dag_ids : User → gset string.

Abbreviation get_dags := (get_dags get_accessible_dag_ids).
Abbreviation matching tags dag_id_pattern only_active user :=
  (λ d, Is_true (satisfies_filters tags dag_id_pattern only_active
                   (get_accessible_dag_ids user) d)).

(** C1: every record of the page returned by [get_dags] has its
    identifier in the set the permission evaluator returned for the
    requesting user; [get_dags] always returns. *)
Theorem C1_get_dags_no_accessibility_leak
    limit offset tags dag_id_pattern only_active (user : User) s :
  ∃ page n,
    get_dags limit offset tags dag_id_pattern only_active user s
    = (Return (dags_collection_schema_dump {| dags := page; total_entries := n |}), s)
    ∧ ∀ d, d ∈ page → dag_id d ∈ get_accessible_dag_ids user.
Proof.
  eexists _, _. split; [apply get_dags_eq|].
  intros d Hd.
  apply subseteq_take, subseteq_drop in Hd.
  rewrite merge_sort_Permutation in Hd.
  apply list_elem_of_filter in Hd as [Hd _].
  unfold satisfies_filters in Hd. rewrite !andb_True in Hd.
  destruct Hd as [[_ Hd] _]. by apply bool_decide_unpack in Hd.
Qed.

(** C2: [total_entries] is the number of rows of the table that satisfy
    the combined filters, whatever [limit] and [offset] are. *)
Theorem C2_get_dags_total_entries
    limit offset tags dag_id_pattern only_active (user : User) s :
  ∃ page,
    get_dags limit offset tags dag_id_pattern only_active user s
    = (Return (dags_collection_schema_dump
         {| dags := page;
            total_entries :=
              length (filter (matching tags dag_id_pattern only_active user)
                        (dag (view s))) |}), s).
Proof. eexists. apply get_dags_eq. Qed.

(** C6: with a non-empty collection of requested tags, the records kept
    are those that pass the other filters and carry at least one of the
    requested tags; the count and the page are taken from them. *)
Theorem C6_get_dags_tags_any
    limit offset requested dag_id_pattern only_active (user : User) s :
  requested ≠ [] →
  let kept :=
    filter (λ d, matching None dag_id_pattern only_active user d
                 ∧ Exists (has_tag d) requested) (dag (view s)) in
  get_dags limit offset (Some requested) dag_id_pattern only_active user s
  = (Return (dags_collection_schema_dump
       {| dags := take limit (drop offset (merge_sort dag_id_le kept));
          total_entries := length kept |}), s)
  ∧ ∀ d, d ∈ kept ↔
         d ∈ dag (view s)
         ∧ matching None dag_id_pattern only_active user d
         ∧ ∃ tag, tag ∈ requested ∧ tag ∈ name <$> tags d.
Proof.
  intros Hne kept.
  assert (filter (matching (Some requested) dag_id_pattern only_active user)
            (dag (view s)) = kept) as Hkept.
  { apply list_filter_iff. intros d. unfold satisfies_filters.
    destruct requested as [|tag requested]; [done|].
    rewrite !andb_True, !bool_decide_spec. simpl. tauto. }
  split.
  - rewrite get_dags_eq. by rewrite Hkept.
  - intros d. unfold kept. rewrite list_elem_of_filter, Exists_exists.
    unfold has_tag. tauto.
Qed.

(** C8: an [offset] at or beyond the number of matching rows gives an
    empty page with the right [total_entries], and no exception. *)
Theorem C8_get_dags_offset_beyond_total
    limit offset tags dag_id_pattern only_active (user : User) s :
  (length (filter (matching tags dag_id_pattern only_active user) (dag (view s)))
   ≤ offset)%nat →
  get_dags limit offset tags dag_id_pattern only_active user s
  = (Return (dags_collection_schema_dump
       {| dags := [];
          total_entries :=
            length (filter (matching tags dag_id_pattern only_active user)
                      (dag (view s))) |}), s).
Proof.
  intros Hoff. rewrite get_dags_eq. do 3 f_equal.
  rewrite drop_ge; [by rewrite take_nil|].
  by rewrite merge_sort_Permutation.
Qed.

(** C9: the page is cut, by [offset] and then [limit], from the matching
    rows put in ascending [dag_id] order; the answer depends on the
    inputs and the rows of the [dag] table only, and, the keys being
    pairwise different, not on the order in which the table holds them. *)
Theorem C9_get_dags_deterministic
    limit offset tags dag_id_pattern only_active (user : User) s :
  ∃ page n,
    get_dags limit offset tags dag_id_pattern only_active user s
    = (Return (dags_collection_schema_dump {| dags := page; total_entries := n |}), s)
    ∧ (∃ sorted,
         sorted ≡ₚ filter (matching tags dag_id_pattern only_active user) (dag (view s))
         ∧ StronglySorted dag_id_le sorted
         ∧ page = take limit (drop offset sorted))
    ∧ StronglySorted dag_id_le page
    ∧ (∀ s', dag (view s') = dag (view s) →
         (get_dags limit offset tags dag_id_pattern only_active user s').1
         = Return (dags_collection_schema_dump {| dags := page; total_entries := n |}))
    ∧ (NoDup (dag_id <$> dag (view s)) →
       ∀ s', dag (view s') ≡ₚ dag (view s) →
         (get_dags limit offset tags dag_id_pattern only_active user s').1
         = Return (dags_collection_schema_dump {| dags := page; total_entries := n |})).
Proof.
  eexists _, _. split; [apply get_dags_eq|]. split; [|split; [|split]].
  - eexists (merge_sort dag_id_le _). split; [apply merge_sort_Permutation|].
    split; [apply order_by_sorted|done].
  - apply StronglySorted_take, StronglySorted_drop, order_by_sorted.
  - intros s' Hs'. rewrite get_dags_eq. simpl. by rewrite Hs'.
  - intros Hnd s' Hs'. rewrite get_dags_eq. simpl. do 3 f_equal.
    + do 2 f_equal. apply (order_by_unique (dag (view s'))).
      * by rewrite Hs'.
      * intros d Hd. by apply list_elem_of_filter in Hd as [_ Hd].
      * by rewrite Hs'.
    + by rewrite Hs'.
Qed.

(** C7, as the code has it: the accessibility criterion is added after
    the base predicate and the id pattern and before the tags; the
    criteria being conjoined, the rows selected are those that restricting
    to the accessible identifiers first and applying the other criteria
    afterwards would select. *)
Theorem C7_get_dags_accessibility_position
    tags dag_id_pattern only_active (user : User) table :
  let q := get_dags_query get_accessible_dag_ids tags dag_id_pattern only_active user in
  let access := dag_id_in_ (get_accessible_dag_ids user) in
  let before := (base_clauses only_active ++ pattern_clauses dag_id_pattern)%list in
  Query.whereclause q = (before ++ access :: tags_clauses tags)%list
  ∧ before ≠ []
  ∧ Query.rows q table
    = Query.restrict (before ++ tags_clauses tags) (Query.restrict [access] table)
  ∧ ∀ d, d ∈ Query.rows q table → dag_id d ∈ get_accessible_dag_ids user.
Proof.
  intros q access before. split; [|split; [|split]].
  - unfold q, before. rewrite whereclause_get_dags_query. by rewrite <-app_assoc.
  - unfold before, base_clauses. by destruct only_active.
  - unfold q. rewrite rows_restrict, whereclause_get_dags_query.
    rewrite !restrict_filter, list_filter_filter.
    apply list_filter_iff. intros d. fold access. unfold before.
    rewrite !Forall_app, Forall_cons, Forall_singleton. tauto.
  - intros d Hd. unfold q in Hd. rewrite rows_get_dags_query in Hd.
    apply list_elem_of_filter in Hd as [Hd _].
    unfold satisfies_filters in Hd. rewrite !andb_True in Hd.
    destruct Hd as [[_ Hd] _]. by apply bool_decide_unpack in Hd.
Qed.

End listing_claims.

(** ** Looking a record up by its key *)

Lemma rows_dag_id_eq k table :
  Query.rows (Query.filter Query.query_DagModel [dag_id_eq k]) table
  = filter (λ x, dag_id x = k) table.
Proof.
  unfold Query.rows. simpl. apply list_filter_iff. intros x. simpl.
  apply bool_decide_spec.
Qed.

Lemma one_or_none_stored s k d :
  stored s k d →
  Query.one_or_none (Query.filter Query.query_DagModel [dag_id_eq k]) s
  = (Return (Some d), s).
Proof.
  intros Hd. unfold Query.one_or_none, Query.all, get_session, mbind, M_bind, mret, M_ret.
  rewrite rows_dag_id_eq. unfold stored in Hd. by rewrite Hd.
Qed.

Lemma one_or_none_key s k d s' :
  Query.one_or_none (Query.filter Query.query_DagModel [dag_id_eq k]) s
  = (Return (Some d), s') →
  s' = s ∧ stored s k d.
Proof.
  unfold Query.one_or_none, Query.all, get_session, mbind, M_bind, mret, M_ret, stored.
  rewrite rows_dag_id_eq.
  destruct (filter _ _) as [|x [|y l]]; unfold raise; intros H; by simplify_eq.
Qed.

Lemma one_or_none_session s k r s' :
  Query.one_or_none (Query.filter Query.query_DagModel [dag_id_eq k]) s = (r, s') →
  s' = s.
Proof.
  unfold Query.one_or_none, Query.all, get_session, mbind, M_bind, mret, M_ret.
  destruct (Query.rows _ _) as [|x [|y l]]; unfold raise; intros H; by simplify_eq.
Qed.

Lemma stored_key s k d : stored s k d → dag_id d = k.
Proof.
  unfold stored. intros Hd.
  assert (d ∈ filter (λ x, dag_id x = k) (dag (view s))) as Hin
    by (rewrite Hd; by left).
  by apply list_elem_of_filter in Hin as [? _].
Qed.

(** ** Assigning [is_paused] *)

Lemma setattr_same d v : same_but_is_paused d (setattr_is_paused d v).
Proof. by repeat split. Qed.

Lemma assign_frame k v s :
  Forall2 (λ a b, same_but_is_paused a b ∧ (dag_id a ≠ k → a = b))
    (dag (view s)) (dag (view (commit (assign_is_paused k v s))))
  ∧ task_instance (view (commit (assign_is_paused k v s))) = task_instance (view s).
Proof.
  split; [|done]. simpl.
  induction (dag (view s)) as [|d table IH]; [constructor|].
  rewrite fmap_cons. constructor; [|done].
  destruct (decide (dag_id d = k)); [|by repeat split].
  split; [apply setattr_same|done].
Qed.

Lemma assign_stored k v s d :
  stored s k d → stored (commit (assign_is_paused k v s)) k (setattr_is_paused d v).
Proof.
  unfold stored. simpl. revert d.
  induction (dag (view s)) as [|x table IH]; intros d Hd; [done|].
  rewrite fmap_cons. rewrite filter_cons in Hd.
  destruct (decide (dag_id x = k)) as [Hx|Hx].
  - simplify_eq. rewrite filter_cons_True by done. f_equal.
    destruct (filter _ table) eqn:Hf; [|done].
    clear IH. induction table as [|y table IH]; [done|].
    rewrite filter_cons in Hf. rewrite fmap_cons.
    destruct (decide (dag_id y = dag_id d)); [done|].
    rewrite filter_cons_False by done. auto.
  - rewrite filter_cons_False by done. auto.
Qed.

Section patching.

Context {Json : Type}.
Variable dag_schema_load : Json → string + gmap string value.

(** C3: on a stored DAG and a valid document, an update mask with more
    than one entry, or with an entry other than [is_paused], is answered
    with [BadRequest]; the session is returned as it was received: no
    attribute assigned, nothing committed. *)
Theorem C3_patch_dag_mask_rejected k mask json s d body :
  stored s k d →
  dag_schema_load json = inr body →
  ((1 < length mask)%nat ∨ ∃ field, field ∈ mask ∧ field ≠ "is_paused") →
  patch_dag dag_schema_load k (Some mask) json s
  = (Raise (BadRequest None only_is_paused), s).
Proof.
  intros Hd Hload Hmask.
  unfold patch_dag, mbind, M_bind.
  rewrite (one_or_none_stored s k d Hd), Hload. simpl.
  destruct mask as [|field mask].
  { destruct Hmask as [Hlen|(f & Hf & _)]; [simpl in Hlen; lia|by inv Hf]. }
  destruct (decide (1 < length (field :: mask))%nat) as [|Hlen]; [done|].
  destruct mask as [|field' mask]; [|simpl in Hlen; lia].
  destruct Hmask as [Hlen'|(f & Hf & Hne)]; [simpl in Hlen'; lia|].
  apply list_elem_of_singleton in Hf as ->.
  by destruct (decide (field ≠ "is_paused")).
Qed.

(** C4: with the mask [["is_paused"]] and a valid document that sets
    [is_paused] to true, patching a stored, unpaused DAG returns the record
    paused and otherwise as it was, and commits it; and whatever the call
    (any mask, any document, any outcome), the rows of the table differ
    from the rows before in [is_paused] at most, and only under the key
    patched. *)
Theorem C4_patch_dag_only_is_paused k json s :
  (∀ d body,
     stored s k d →
     is_paused d = VBool false →
     dag_schema_load json = inr body →
     body !! "is_paused" = Some (VBool true) →
     ∃ d' s',
       patch_dag dag_schema_load k (Some ["is_paused"]) json s
       = (Return (dag_schema_dump d'), s')
       ∧ is_paused d' = VBool true
       ∧ same_but_is_paused d d'
       ∧ stored s' k d'
       ∧ persisted s' = view s')
  ∧ (∀ mask,
       let s' := (patch_dag dag_schema_load k mask json s).2 in
       Forall2 (λ a b, same_but_is_paused a b ∧ (dag_id a ≠ k → a = b))
         (dag (view s)) (dag (view s'))
       ∧ task_instance (view s') = task_instance (view s)).
Proof.
  split.
  - intros d body Hd Hp Hload Hbody.
    exists (setattr_is_paused d (VBool true)),
           (commit (assign_is_paused k (VBool true) s)).
    split; [|split; [done|split; [apply setattr_same|split; [|done]]]].
    + unfold patch_dag, mbind, M_bind.
      rewrite (one_or_none_stored s k d Hd), Hload. simpl.
      unfold getitem. rewrite Hbody. simpl. rewrite lookup_insert_eq. simpl.
      by rewrite (stored_key s k d Hd).
    + by apply assign_stored.
  - intros mask s'.
    assert (s' = s ∨ ∃ v, s' = commit (assign_is_paused k v s)) as [->|[v ->]].
    { unfold s', patch_dag, mbind, M_bind.
      destruct (Query.one_or_none _ s) as [[[dag|]|e] s0] eqn:Hq.
      - apply one_or_none_key in Hq as [-> Hd].
        rewrite (stored_key s k dag Hd).
        unfold mret, M_ret, raise, getitem, modify_session.
        repeat (case_match; unfold mret, M_ret, raise in *; simplify_eq/=); eauto.
      - apply one_or_none_session in Hq as ->. by left.
      - apply one_or_none_session in Hq as ->. by left. }
    + split; [|done]. apply Forall_Forall2_diag, Forall_forall.
      intros x _. by repeat split.
    + apply assign_frame.
Qed.

(** C10: on a stored DAG, a valid document without the key [is_paused],
    patched with no mask, with the empty mask or with the mask
    [["is_paused"]], is answered with [KeyError], which is none of the
    classified errors; the session is returned as it was received. *)
Theorem C10_patch_dag_missing_is_paused k mask json s d body :
  stored s k d →
  dag_schema_load json = inr body →
  body !! "is_paused" = None →
  mask = None ∨ mask = Some [] ∨ mask = Some ["is_paused"] →
  patch_dag dag_schema_load k mask json s = (Raise (KeyError "is_paused"), s)
  ∧ classified (KeyError "is_paused") = false.
Proof.
  intros Hd Hload Hbody Hmask. split; [|done].
  unfold patch_dag, mbind, M_bind.
  rewrite (one_or_none_stored s k d Hd), Hload. simpl.
  destruct Hmask as [->|[->| ->]]; simpl; unfold getitem; by rewrite Hbody.
Qed.

End patching.

(** ** Deleting *)

Lemma delete_dag_raises {Deleted} (routine : string → M Deleted) k s e s' :
  routine k s = (Raise e, s') →
  delete_dag routine k s
  = ((if isinstance_DagNotFound e then
        Raise (NotFound ("Dag with id: '" ++ k ++ "' not found") None)
      else if isinstance_AirflowException e then
        Raise (AlreadyExists
                 ("Task instances of dag with id: '" ++ k ++ "' are still running"))
      else Raise e), s').
Proof.
  intros Hr. unfold delete_dag, try_except, mbind, M_bind. rewrite Hr.
  by destruct e.
Qed.

Lemma delete_dag_returns {Deleted} (routine : string → M Deleted) k s n s' :
  routine k s = (Return n, s') →
  delete_dag routine k s = (Return (NoContent 204), s').
Proof.
  intros Hr. unfold delete_dag, try_except, mbind, M_bind. by rewrite Hr.
Qed.

Lemma get_dag_absent k s :
  (∀ x, x ∈ dag (view s) → dag_id x ≠ k) →
  get_dag k s
  = (Raise (NotFound "DAG not found"
              (Some ("The DAG with dag_id: " ++ k ++ " was not found"))), s).
Proof.
  intros Habs.
  unfold get_dag, Query.one_or_none, Query.all, get_session, mbind, M_bind, mret, M_ret.
  rewrite rows_dag_id_eq.
  assert (filter (λ x, dag_id x = k) (dag (view s)) = []) as ->; [|done].
  induction (dag (view s)) as [|x table IH]; [done|].
  rewrite filter_cons_False; [apply IH|apply Habs; by left].
  intros y Hy. apply Habs. by right.
Qed.

(** C5: [DagNotFound] from the deletion routine becomes [NotFound], any
    other [AirflowException] becomes [AlreadyExists], a return becomes
    [(NoContent, 204)]; with the deletion routine of the specification, a
    DAG that has a running task instance is answered with [AlreadyExists]
    and the session is as it was, an absent one with [NotFound], and after
    a deletion no row has the identifier and [get_dag] raises [NotFound]. *)
Theorem C5_delete_dag_translation k s :
  (∀ Deleted (routine : string → M Deleted) msg s',
     routine k s = (Raise (DagNotFound msg), s') →
     delete_dag routine k s
     = (Raise (NotFound ("Dag with id: '" ++ k ++ "' not found") None), s'))
  ∧ (∀ Deleted (routine : string → M Deleted) msg s',
       routine k s = (Raise (AirflowException msg), s') →
       delete_dag routine k s
       = (Raise (AlreadyExists
                   ("Task instances of dag with id: '" ++ k ++ "' are still running")),
          s'))
  ∧ (∀ Deleted (routine : string → M Deleted) n s',
       routine k s = (Return n, s') →
       delete_dag routine k s = (Return (NoContent 204), s'))
  ∧ ((∀ x, x ∈ dag (view s) → dag_id x ≠ k) →
     delete_dag spec_delete_dag k s
     = (Raise (NotFound ("Dag with id: '" ++ k ++ "' not found") None), s))
  ∧ (∀ d, d ∈ dag (view s) → dag_id d = k →
       Exists (running k) (task_instance (view s)) →
       delete_dag spec_delete_dag k s
       = (Raise (AlreadyExists
                   ("Task instances of dag with id: '" ++ k ++ "' are still running")),
          s))
  ∧ (∀ d, d ∈ dag (view s) → dag_id d = k →
       ¬ Exists (running k) (task_instance (view s)) →
       ∃ s',
         delete_dag spec_delete_dag k s = (Return (NoContent 204), s')
         ∧ (∀ x, x ∈ dag (view s') → dag_id x ≠ k)
         ∧ get_dag k s'
           = (Raise (NotFound "DAG not found"
                       (Some ("The DAG with dag_id: " ++ k ++ " was not found"))), s')).
Proof.
  assert (∀ d, d ∈ dag (view s) → dag_id d = k →
            filter (λ x, dag_id x = k) (dag (view s)) ≠ []) as Hpresent.
  { intros d Hd Hk Hnil.
    assert (d ∈ filter (λ x, dag_id x = k) (dag (view s))) as Hin
      by (by apply list_elem_of_filter).
    rewrite Hnil in Hin. by inv Hin. }
  split; [|split; [|split; [|split; [|split]]]].
  - intros Deleted routine msg s' Hr. by rewrite (delete_dag_raises _ _ _ _ _ Hr).
  - intros Deleted routine msg s' Hr. by rewrite (delete_dag_raises _ _ _ _ _ Hr).
  - intros Deleted routine n s'. apply delete_dag_returns.
  - intros Habs.
    rewrite (delete_dag_raises _ _ _ (DagNotFound ("Dag id " ++ k ++ " not found")) s);
      [done|].
    unfold spec_delete_dag. rewrite decide_True; [done|].
    induction (dag (view s)) as [|x table IH]; [done|].
    rewrite filter_cons_False; [|apply Habs; by left].
    apply IH; [|intros y Hy; apply Habs; by right].
    intros d Hd Hk. by destruct (Habs d); [right|].
  - intros d Hd Hk Hrun.
    rewrite (delete_dag_raises _ _ _ (AirflowException "TaskInstances still running") s);
      [done|].
    unfold spec_delete_dag.
    rewrite decide_False by eauto. by rewrite decide_True.
  - intros d Hd Hk Hrun.
    set (db' := {| dag := filter (λ x, dag_id x ≠ k) (dag (view s));
                   task_instance :=
                     filter (λ ti, ti_dag_id ti ≠ k) (task_instance (view s)) |}).
    assert (∀ x, x ∈ dag db' → dag_id x ≠ k) as Hgone.
    { intros x Hx. simpl in Hx. by apply list_elem_of_filter in Hx as [? _]. }
    exists {| view := db'; persisted := db' |}. split; [|split; [done|]].
    + eapply delete_dag_returns. unfold spec_delete_dag.
      rewrite decide_False by eauto. by rewrite decide_False.
    + by apply get_dag_absent.
Qed.

(** ** The endpoints on the example registry *)

Example get_dags_example :
  (get_dags example_accessible 10 0 None None false tt example_session).1
  = Return (dags_collection_schema_dump
              {| dags := [example_alpha; example_beta]; total_entries := 2 |}).
Proof. reflexivity. Qed.

Example get_dags_second_page :
  (get_dags example_accessible 1 1 None None true tt example_session).1
  = Return (dags_collection_schema_dump
              {| dags := [example_beta]; total_entries := 2 |}).
Proof. reflexivity. Qed.

Example get_dags_pattern_wildcard :
  (get_dags example_accessible 10 0 None (Some "L_H") true tt example_session).1
  = Return (dags_collection_schema_dump
              {| dags := [example_alpha]; total_entries := 1 |}).
Proof. reflexivity. Qed.

Example get_dag_example :
  (get_dag "gamma" example_session).1 = Return (dag_schema_dump example_gamma).
Proof. reflexivity. Qed.

Example patch_dag_two_fields :
  (patch_dag example_load "alpha" (Some ["is_paused"; "is_paused"])
     {[ "is_paused" := VBool true ]} example_session).1
  = Raise (BadRequest None only_is_paused).
Proof. reflexivity. Qed.

Example patch_dag_empty_mask :
  (patch_dag example_load "alpha" (Some [])
     {[ "is_paused" := VBool true ]} example_session).1
  = Return (dag_schema_dump (setattr_is_paused example_alpha (VBool true))).
Proof. reflexivity. Qed.

Example patch_dag_absent :
  (patch_dag example_load "delta" None {[ "is_paused" := VBool true ]}
     example_session).1
  = Raise (NotFound "Dag with id: 'delta' not found" None).
Proof. reflexivity. Qed.


(** C7 as worded, accessibility first, fails: with no pattern and no tags
    the first criterion applied is the exclusion of subdags, not the
    restriction to the accessible identifiers. *)
Lemma C7_accessibility_not_first :
  ¬ accessibility_applied_first
      (get_dags_query example_accessible None None true tt) (example_accessible tt).
Proof. intros [rest Hrest]. simpl in Hrest. discriminate Hrest. Qed.

(** C3 on the example registry: the mask [["name"]] on [alpha]. *)
Lemma C3_witness :
  stored example_session "alpha" example_alpha
  ∧ patch_dag example_load "alpha" (Some ["name"]) {[ "is_paused" := VBool true ]}
      example_session
    = (Raise (BadRequest None only_is_paused), example_session).
Proof.
  split; [reflexivity|].
  apply (C3_patch_dag_mask_rejected example_load "alpha" ["name"]
           {[ "is_paused" := VBool true ]} example_session example_alpha
           {[ "is_paused" := VBool true ]}).
  - reflexivity.
  - reflexivity.
  - right. exists "name". split; [by left|discriminate].
Defined.

(** C4 on the example registry: pausing [alpha]. *)
Lemma C4_witness :
  ∃ d' s',
    patch_dag example_load "alpha" (Some ["is_paused"]) {[ "is_paused" := VBool true ]}
      example_session
    = (Return (dag_schema_dump d'), s')
    ∧ is_paused d' = VBool true
    ∧ same_but_is_paused example_alpha d'
    ∧ stored s' "alpha" d'
    ∧ persisted s' = view s'.
Proof.
  destruct (C4_patch_dag_only_is_paused example_load "alpha"
              {[ "is_paused" := VBool true ]} example_session) as [Hpatch _].
  apply (Hpatch example_alpha {[ "is_paused" := VBool true ]}); reflexivity.
Defined.

(** C10 on the example registry: the empty document, no mask. *)
Lemma C10_witness :
  patch_dag example_load "alpha" None ∅ example_session
  = (Raise (KeyError "is_paused"), example_session)
  ∧ classified (KeyError "is_paused") = false.
Proof.
  apply (C10_patch_dag_missing_is_paused example_load "alpha" None ∅ example_session
           example_alpha ∅).
  - reflexivity.
  - reflexivity.
  - reflexivity.
  - by left.
Defined.

(** C5 on the example registry: [beta] has a running task instance,
    [alpha] has none. *)
Lemma C5_witness :
  delete_dag spec_delete_dag "beta" example_session
  = (Raise (AlreadyExists "Task instances of dag with id: 'beta' are still running"),
     example_session)
  ∧ ∃ s', delete_dag spec_delete_dag "alpha" example_session
          = (Return (NoContent 204), s')
          ∧ (∀ x, x ∈ dag (view s') → dag_id x ≠ "alpha")
          ∧ get_dag "alpha" s'
            = (Raise (NotFound "DAG not found"
                        (Some "The DAG with dag_id: alpha was not found")), s').
Proof.
  split.
  - destruct (C5_delete_dag_translation "beta" example_session)
      as (_ & _ & _ & _ & Hrunning & _).
    apply (Hrunning example_beta).
    + right. right. left.
    + reflexivity.
    + apply Exists_cons_hd. split; reflexivity.
  - destruct (C5_delete_dag_translation "alpha" example_session)
      as (_ & _ & _ & _ & _ & Hquiet).
    apply (Hquiet example_alpha).
    + right. left.
    + reflexivity.
    + intros Hrun. apply Exists_exists in Hrun as (ti & Hti & Hk & Hstate).
      repeat (apply elem_of_cons in Hti as [->|Hti]; [discriminate|]).
      by inv Hti.
Defined.

(** C6 on the example registry: [alpha] carries [etl] only, [beta]
    carries [ml] only; both are returned. *)
Lemma C6_witness :
  ["etl"; "ml"] ≠ []
  ∧ (get_dags example_accessible 10 0 (Some ["etl"; "ml"]) None true tt
       example_session).1
    = Return (dags_collection_schema_dump
                {| dags := [example_alpha; example_beta]; total_entries := 2 |}).
Proof.
  split; [discriminate|].
  destruct (C6_get_dags_tags_any example_accessible 10 0 ["etl"; "ml"] None true tt
              example_session) as [Hcall _]; [discriminate|].
  rewrite Hcall. reflexivity.
Defined.

(** C8 on the example registry: two rows match, the offset is two. *)
Lemma C8_witness :
  get_dags example_accessible 10 2 None None true tt example_session
  = (Return (dags_collection_schema_dump {| dags := []; total_entries := 2 |}),
     example_session).
Proof.
  apply (C8_get_dags_offset_beyond_total example_accessible 10 2 None None true tt
           example_session).
  vm_compute. lia.
Defined.

(** C9 on the example registry and on the same rows stored in another
    order. *)
Lemma C9_witness :
  NoDup (dag_id <$> dag (view example_session))
  ∧ dag (view example_session_reordered) ≡ₚ dag (view example_session)
  ∧ (get_dags example_accessible 1 1 None None false tt example_session_reordered).1
    = (get_dags example_accessible 1 1 None None false tt example_session).1.
Proof.
  assert (NoDup (dag_id <$> dag (view example_session))) as Hnd.
  { apply (bool_decide_unpack _). vm_compute. exact I. }
  assert (dag (view example_session_reordered) ≡ₚ dag (view example_session)) as Hp.
  { simpl. etrans; [apply perm_swap|]. apply perm_skip, perm_swap. }
  split; [done|]. split; [done|].
  destruct (C9_get_dags_deterministic example_accessible 1 1 None None false tt
              example_session) as (page & n & Hcall & _ & _ & _ & Hreorder).
  rewrite Hcall. by apply Hreorder.
Defined.

(** * Further properties of the endpoints *)

(** ** Listing *)

Lemma satisfies_filters_flags tags dag_id_pattern only_active accessible d :
  satisfies_filters tags dag_id_pattern only_active accessible d →
  is_subdag d = false ∧ (only_active = true → is_active d = true).
Proof.
  unfold satisfies_filters. rewrite !andb_True, negb_True.
  intros [[[[Hsub Hact] _] _] _]. split.
  - by destruct (is_subdag d).
  - intros ->. by apply Is_true_true.
Qed.

Lemma satisfies_filters_tags requested dag_id_pattern only_active accessible d :
  satisfies_filters (Some requested) dag_id_pattern only_active accessible d
  ↔ satisfies_filters None dag_id_pattern only_active accessible d
    ∧ (requested = [] ∨ ∃ tag, tag ∈ requested ∧ has_tag d tag).
Proof.
  unfold satisfies_filters. rewrite !andb_True.
  destruct requested as [|tag requested]; simpl.
  - intuition.
  - pose proof (Exists_exists (has_tag d) (tag :: requested)) as He. split.
    + intros [Hd Htag]. split; [tauto|]. right.
      apply bool_decide_unpack in Htag. by apply He.
    + intros [[Hd _] [?|Htag]]; [done|]. split; [done|].
      apply bool_decide_pack. by apply He.
Qed.


Lemma filter_narrow {A} (P Q : A → Prop) `{∀ x, Decision (P x)} `{∀ x, Decision (Q x)}
    (l : list A) :
  (∀ x, P x → Q x) → filter P l = filter P (filter Q l).
Proof.
  intros HPQ. rewrite list_filter_filter. apply list_filter_iff.
  intros x. split; [auto|tauto].
Qed.

(** A table with pairwise different keys stores each of its rows. *)
Lemma NoDup_stored s d :
  NoDup (dag_id <$> dag (view s)) → d ∈ dag (view s) → stored s (dag_id d) d.
Proof.
  unfold stored. induction (dag (view s)) as [|x table IH]; intros Hnd Hd;
    [by apply not_elem_of_nil in Hd|].
  rewrite fmap_cons in Hnd. apply NoDup_cons in Hnd as [Hx Hnd].
  apply elem_of_cons in Hd as [->|Hd].
  - rewrite filter_cons_True by done. f_equal.
    clear IH. induction table as [|y table IH]; [done|].
    rewrite fmap_cons in Hx, Hnd. apply NoDup_cons in Hnd as [_ Hnd].
    apply not_elem_of_cons in Hx as [Hxy Hx].
    rewrite filter_cons_False by done. auto.
  - rewrite filter_cons_False; [auto|].
    intros Hk. apply Hx. rewrite Hk. by apply list_elem_of_fmap_2.
Qed.

Section listing_more.

Context {User : Type}.
Variable get_accessible_dag_ids : User → gset string.

Abbreviation get_dags := (get_dags get_accessible_dag_ids).
Abbreviation matching tags dag_id_pattern only_active user :=
  (λ d, Is_true (satisfies_filters tags dag_id_pattern only_active
                   (get_accessible_dag_ids user) d)).

(** X1: no record of a page is a subdag, and with [only_active] every
    record of the page is active. *)
Theorem X1_get_dags_flags
    limit offset tags dag_id_pattern only_active (user : User) s :
  ∃ page n,
    get_dags limit offset tags dag_id_pattern only_active user s
    = (Return (dags_collection_schema_dump {| dags := page; total_entries := n |}), s)
    ∧ ∀ d, d ∈ page →
           is_subdag d = false ∧ (only_active = true → is_active d = true).
Proof.
  eexists _, _. split; [apply get_dags_eq|].
  intros d Hd. apply subseteq_take, subseteq_drop in Hd.
  rewrite merge_sort_Permutation in Hd.
  apply list_elem_of_filter in Hd as [Hd _].
  by eapply satisfies_filters_flags.
Qed.




(** X5: an empty tag collection and an empty id pattern are taken as
    absent ([if tags:], [if dag_id_pattern:]). *)
Theorem X5_get_dags_empty_arguments
    limit offset tags dag_id_pattern only_active (user : User) s :
  get_dags limit offset (Some []) dag_id_pattern only_active user s
  = get_dags limit offset None dag_id_pattern only_active user s
  ∧ get_dags limit offset tags (Some "") only_active user s
    = get_dags limit offset tags None only_active user s.
Proof. split; reflexivity. Qed.

(** X6: the answer depends on the set of requested tags only, not on
    their order or on repetitions. *)
Theorem X6_get_dags_tags_as_set
    limit offset tags1 tags2 dag_id_pattern only_active (user : User) s :
  (∀ tag, tag ∈ tags1 ↔ tag ∈ tags2) →
  get_dags limit offset (Some tags1) dag_id_pattern only_active user s
  = get_dags limit offset (Some tags2) dag_id_pattern only_active user s.
Proof.
  intros Hset. rewrite !get_dags_eq.
  assert (filter (matching (Some tags1) dag_id_pattern only_active user) (dag (view s))
          = filter (matching (Some tags2) dag_id_pattern only_active user)
              (dag (view s))) as ->; [|done].
  apply list_filter_iff. intros d. rewrite !satisfies_filters_tags.
  assert (tags1 = [] ↔ tags2 = []) as Hnil.
  { split; intros ->.
    - destruct tags2 as [|tag ?]; [done|].
      destruct (not_elem_of_nil tag). apply Hset. by left.
    - destruct tags1 as [|tag ?]; [done|].
      destruct (not_elem_of_nil tag). apply Hset. by left. }
  rewrite Hnil. by setoid_rewrite Hset.
Qed.

(** X7: [only_active] narrows the listing: it reports no more matches
    than the call without it, and every record of its page is a match of
    the call without it. *)
Theorem X7_get_dags_only_active_narrows
    limit offset tags dag_id_pattern (user : User) s :
  ∃ page n page_all n_all,
    get_dags limit offset tags dag_id_pattern true user s
    = (Return (dags_collection_schema_dump {| dags := page; total_entries := n |}), s)
    ∧ get_dags limit offset tags dag_id_pattern false user s
      = (Return (dags_collection_schema_dump
           {| dags := page_all; total_entries := n_all |}), s)
    ∧ (n ≤ n_all)%nat
    ∧ ∀ d, d ∈ page →
           d ∈ filter (matching tags dag_id_pattern false user) (dag (view s)).
Proof.
  eexists _, _, _, _. split; [apply get_dags_eq|]. split; [apply get_dags_eq|].
  assert (∀ d, matching tags dag_id_pattern true user d →
               matching tags dag_id_pattern false user d) as Hnarrow.
  { intros d. unfold satisfies_filters. rewrite !andb_True. simpl. tauto. }
  split.
  - rewrite (filter_narrow _ _ _ Hnarrow). apply length_filter.
  - intros d Hd. apply subseteq_take, subseteq_drop in Hd.
    rewrite merge_sort_Permutation in Hd.
    apply list_elem_of_filter in Hd as [Hd Hin].
    apply list_elem_of_filter. auto.
Qed.

(** X8: a user without any accessible identifier gets the empty page and
    a total of zero, whatever the table and the other arguments. *)
Theorem X8_get_dags_nothing_accessible
    limit offset tags dag_id_pattern only_active (user : User) s :
  get_accessible_dag_ids user = ∅ →
  get_dags limit offset tags dag_id_pattern only_active user s
  = (Return (dags_collection_schema_dump {| dags := []; total_entries := 0 |}), s).
Proof.
  intros Hnone. rewrite get_dags_eq.
  assert (filter (matching tags dag_id_pattern only_active user) (dag (view s)) = [])
    as ->.
  2: { change (merge_sort dag_id_le []) with (@nil DagModel).
       by rewrite drop_nil, take_nil. }
  induction (dag (view s)) as [|d table IH]; [done|].
  rewrite filter_cons_False; [done|].
  unfold satisfies_filters. rewrite !andb_True, bool_decide_spec, Hnone.
  intros [[_ Hin] _]. by apply not_elem_of_empty in Hin.
Qed.

(** X9: with pairwise different keys in the table, every record of a page
    can be fetched by its identifier: [get_dag] returns that very record. *)
Theorem X9_get_dags_listed_is_fetchable
    limit offset tags dag_id_pattern only_active (user : User) s :
  NoDup (dag_id <$> dag (view s)) →
  ∃ page n,
    get_dags limit offset tags dag_id_pattern only_active user s
    = (Return (dags_collection_schema_dump {| dags := page; total_entries := n |}), s)
    ∧ ∀ d, d ∈ page → get_dag (dag_id d) s = (Return (dag_schema_dump d), s).
Proof.
  intros Hnd. eexists _, _. split; [apply get_dags_eq|].
  intros d Hd. apply subseteq_take, subseteq_drop in Hd.
  rewrite merge_sort_Permutation in Hd.
  apply list_elem_of_filter in Hd as [_ Hd].
  unfold get_dag, mbind, M_bind.
  by rewrite (one_or_none_stored s (dag_id d) d (NoDup_stored s d Hnd Hd)).
Qed.

End listing_more.

(** ** The id pattern *)

Lemma satisfies_filters_pattern tags p only_active accessible d :
  satisfies_filters tags (Some p) only_active accessible d
  ↔ satisfies_filters tags None only_active accessible d
    ∧ ilike (dag_id d) ("%" ++ p ++ "%").
Proof. unfold satisfies_filters. rewrite !andb_True. simpl. tauto. Qed.

Section listing_pattern.

Context {User : Type}.
Variable get_accessible_dag_ids : User → gset string.

Abbreviation get_dags := (get_dags get_accessible_dag_ids).
Abbreviation matching tags dag_id_pattern only_active user :=
  (λ d, Is_true (satisfies_filters tags dag_id_pattern only_active
                   (get_accessible_dag_ids user) d)).

(** X10: with an id pattern that holds neither [%] nor [_], the matches
    are the rows that pass the other filters and whose identifier contains
    the pattern, letter case apart; the count and the page are taken from
    them. *)
Theorem X10_get_dags_pattern_contains
    limit offset tags p only_active (user : User) s :
  literal (chars p) →
  ∃ matched,
    get_dags limit offset tags (Some p) only_active user s
    = (Return (dags_collection_schema_dump
         {| dags := take limit (drop offset (merge_sort dag_id_le matched));
            total_entries := length matched |}), s)
    ∧ ∀ d, d ∈ matched ↔
           d ∈ dag (view s)
           ∧ matching tags None only_active user d
           ∧ contains_ci (dag_id d) p.
Proof.
  intros Hp. eexists. split; [apply get_dags_eq|].
  intros d. rewrite list_elem_of_filter, satisfies_filters_pattern.
  rewrite <-(ilike_contains _ _ Hp), <-Is_true_true. tauto.
Qed.

(** X11: the letter case of the id pattern does not matter: two patterns
    that agree once put in lower case give the same answer. *)
Theorem X11_get_dags_pattern_case
    limit offset tags p1 p2 only_active (user : User) s :
  lower_ascii <$> chars p1 = lower_ascii <$> chars p2 →
  get_dags limit offset tags (Some p1) only_active user s
  = get_dags limit offset tags (Some p2) only_active user s.
Proof.
  intros Hcase. rewrite !get_dags_eq.
  assert (filter (matching tags (Some p1) only_active user) (dag (view s))
          = filter (matching tags (Some p2) only_active user) (dag (view s)))
    as ->; [|done].
  apply list_filter_iff. intros d. rewrite !satisfies_filters_pattern.
  unfold ilike. by rewrite !chars_app, !fmap_app, Hcase.
Qed.

End listing_pattern.

(** ** Patching *)

Lemma one_or_none_absent s k :
  (∀ x, x ∈ dag (view s) → dag_id x ≠ k) →
  Query.one_or_none (Query.filter Query.query_DagModel [dag_id_eq k]) s
  = (Return None, s).
Proof.
  intros Habs.
  unfold Query.one_or_none, Query.all, get_session, mbind, M_bind, mret, M_ret.
  rewrite rows_dag_id_eq.
  assert (filter (λ x, dag_id x = k) (dag (view s)) = []) as ->; [|done].
  induction (dag (view s)) as [|x table IH]; [done|].
  rewrite filter_cons_False; [apply IH|apply Habs; by left].
  intros y Hy. apply Habs. by right.
Qed.

Lemma assign_view k v s :
  dag (view (commit (assign_is_paused k v s))) = paused_as k v <$> dag (view s).
Proof. reflexivity. Qed.

Lemma paused_as_key k v d : dag_id (paused_as k v d) = dag_id d.
Proof. unfold paused_as. by destruct (decide (dag_id d = k)). Qed.

Lemma paused_as_idem k v d : paused_as k v (paused_as k v d) = paused_as k v d.
Proof.
  unfold paused_as. destruct (decide (dag_id d = k)) as [Hk|Hk].
  - simpl. by rewrite decide_True.
  - by rewrite decide_False.
Qed.

Lemma paused_as_flags tags dag_id_pattern only_active accessible k v d :
  satisfies_filters tags dag_id_pattern only_active accessible (paused_as k v d)
  = satisfies_filters tags dag_id_pattern only_active accessible d.
Proof. unfold paused_as. by destruct (decide (dag_id d = k)). Qed.

Lemma assign_idem k v s :
  commit (assign_is_paused k v (commit (assign_is_paused k v s)))
  = commit (assign_is_paused k v s).
Proof.
  unfold commit, assign_is_paused. simpl.
  assert (∀ table : list DagModel,
            (λ d, if decide (dag_id d = k) then setattr_is_paused d v else d)
              <$> ((λ d, if decide (dag_id d = k) then setattr_is_paused d v else d)
                     <$> table)
            = (λ d, if decide (dag_id d = k) then setattr_is_paused d v else d)
                <$> table) as ->; [|done].
  intros table. induction table as [|d table IH]; [done|].
  rewrite !fmap_cons, IH. f_equal. apply (paused_as_idem k v d).
Qed.

Lemma filter_fmap_key (f : DagModel → DagModel) (P : DagModel → Prop)
    `{∀ x, Decision (P x)} (table : list DagModel) :
  (∀ x, P (f x) ↔ P x) → filter P (f <$> table) = f <$> filter P table.
Proof.
  intros Hf. induction table as [|d table IH]; [done|].
  rewrite fmap_cons, !filter_cons.
  destruct (decide (P (f d))) as [Hfd|Hfd], (decide (P d)) as [Hd|Hd];
    rewrite ?fmap_cons, IH; try done.
  - destruct Hd. by apply Hf.
  - destruct Hfd. by apply Hf.
Qed.

Section patching_more.

Context {Json : Type}.
Variable dag_schema_load : Json → string + gmap string value.

(** A patch that succeeds: the inputs, the payload and the session. *)
Lemma patch_dag_success k mask json s d body v :
  stored s k d →
  dag_schema_load json = inr body →
  mask = None ∨ mask = Some [] ∨ mask = Some ["is_paused"] →
  body !! "is_paused" = Some v →
  patch_dag dag_schema_load k mask json s
  = (Return (dag_schema_dump (setattr_is_paused d v)),
     commit (assign_is_paused k v s)).
Proof.
  intros Hd Hload Hmask Hv. unfold patch_dag, mbind, M_bind.
  rewrite (one_or_none_stored s k d Hd), Hload. simpl.
  rewrite (stored_key s k d Hd).
  destruct Hmask as [->|[->| ->]]; simpl; unfold getitem; rewrite Hv; simpl;
    rewrite ?lookup_insert_eq; done.
Qed.

(** Every outcome of a patch: an exception with the session as it was, or
    a success as in [patch_dag_success]. *)
Lemma patch_dag_cases k mask json s r s' :
  patch_dag dag_schema_load k mask json s = (r, s') →
  (s' = s ∧ ∃ e, r = Raise e)
  ∨ ∃ d body v,
      stored s k d ∧ dag_schema_load json = inr body
      ∧ (mask = None ∨ mask = Some [] ∨ mask = Some ["is_paused"])
      ∧ body !! "is_paused" = Some v
      ∧ r = Return (dag_schema_dump (setattr_is_paused d v))
      ∧ s' = commit (assign_is_paused k v s).
Proof.
  unfold patch_dag, mbind, M_bind.
  destruct (Query.one_or_none _ s) as [[[d|]|e] s0] eqn:Hq.
  - apply one_or_none_key in Hq as [-> Hd].
    rewrite (stored_key s k d Hd).
    destruct (dag_schema_load json) as [messages|body] eqn:Hload.
    { unfold raise, mret, M_ret, modify_session; simpl; intros [= <- <-]. left. eauto. }
    destruct mask as [[|field mask]|].
    + simpl. unfold getitem. destruct (body !! "is_paused") as [v|] eqn:Hv.
      * unfold raise, mret, M_ret, modify_session; simpl; intros [= <- <-]. right. exists d, body, v. eauto 10.
      * unfold raise, mret, M_ret, modify_session; simpl; intros [= <- <-]. left. eauto.
    + simpl. destruct (decide (1 < S (length mask))%nat) as [|Hlen].
      { unfold raise, mret, M_ret, modify_session; simpl; intros [= <- <-]. left. eauto. }
      destruct (decide (field ≠ "is_paused")) as [|Hfield].
      { unfold raise, mret, M_ret, modify_session; simpl; intros [= <- <-]. left. eauto. }
      apply dec_stable in Hfield as ->.
      destruct mask as [|field' mask]; [|simpl in Hlen; lia].
      unfold getitem. destruct (body !! "is_paused") as [v|] eqn:Hv.
      * simpl. rewrite lookup_insert_eq. simpl.
        unfold raise, mret, M_ret, modify_session; simpl; intros [= <- <-]. right. exists d, body, v. eauto 10.
      * unfold raise, mret, M_ret, modify_session; simpl; intros [= <- <-]. left. eauto.
    + simpl. unfold getitem. destruct (body !! "is_paused") as [v|] eqn:Hv.
      * unfold raise, mret, M_ret, modify_session; simpl; intros [= <- <-]. right. exists d, body, v. eauto 10.
      * unfold raise, mret, M_ret, modify_session; simpl; intros [= <- <-]. left. eauto.
  - apply one_or_none_session in Hq as ->. unfold raise, mret, M_ret, modify_session; simpl; intros [= <- <-]. left. eauto.
  - apply one_or_none_session in Hq as ->. unfold raise, mret, M_ret, modify_session; simpl; intros [= <- <-]. left. eauto.
Qed.

End patching_more.

(** ** Sorting rows changed in place *)

Section merge_sort_fmap.

Context {A : Type} (R : relation A) `{∀ x y, Decision (R x y)}.
Variable f : A → A.
Hypothesis f_order : ∀ x y, R (f x) (f y) ↔ R x y.

Lemma list_merge_fmap (l1 l2 : list A) :
  list_merge R (f <$> l1) (f <$> l2) = f <$> list_merge R l1 l2.
Proof.
  revert l2. induction l1 as [|x1 l1 IH1]; intros l2.
  { by rewrite fmap_nil, !list_merge_nil_l. }
  induction l2 as [|x2 l2 IH2].
  { by rewrite fmap_nil, !list_merge_nil_r. }
  rewrite !fmap_cons, !list_merge_cons.
  destruct (decide (R (f x1) (f x2))) as [Hf|Hf], (decide (R x1 x2)) as [Hx|Hx].
  - rewrite fmap_cons. f_equal. by rewrite <-IH1.
  - destruct Hx. by apply f_order.
  - destruct Hf. by apply f_order.
  - rewrite fmap_cons. f_equal. by rewrite <-IH2.
Qed.

Lemma merge_list_to_stack_fmap (st : list (option (list A))) (l : list A) :
  merge_list_to_stack R (fmap (M:=option) (fmap (M:=list) f) <$> st) (f <$> l)
  = fmap (M:=option) (fmap (M:=list) f) <$> merge_list_to_stack R st l.
Proof.
  revert l. induction st as [|[l'|] st IH]; intros l; csimpl; [done| |done].
  by rewrite list_merge_fmap, IH.
Qed.

Lemma merge_stack_fmap (st : list (option (list A))) :
  merge_stack R (fmap (M:=option) (fmap (M:=list) f) <$> st) = f <$> merge_stack R st.
Proof.
  induction st as [|[l'|] st IH]; csimpl; [done| |done].
  by rewrite IH, list_merge_fmap.
Qed.

Lemma merge_sort_aux_fmap (st : list (option (list A))) (l : list A) :
  merge_sort_aux R (fmap (M:=option) (fmap (M:=list) f) <$> st) (f <$> l) = f <$> merge_sort_aux R st l.
Proof.
  revert st. induction l as [|x l IH]; intros st; csimpl.
  - apply merge_stack_fmap.
  - change [f x] with (f <$> [x]). by rewrite merge_list_to_stack_fmap, IH.
Qed.

Lemma merge_sort_fmap (l : list A) : merge_sort R (f <$> l) = f <$> merge_sort R l.
Proof. apply (merge_sort_aux_fmap []). Qed.

End merge_sort_fmap.

Lemma order_by_paused_as k v l :
  merge_sort dag_id_le (paused_as k v <$> l) = paused_as k v <$> merge_sort dag_id_le l.
Proof.
  apply merge_sort_fmap. intros x y. unfold dag_id_le.
  by rewrite !paused_as_key.
Qed.

Lemma paused_as_frame k v (l : list DagModel) :
  Forall2 (λ a b, same_but_is_paused a b ∧ (dag_id a ≠ k → a = b))
    l (paused_as k v <$> l).
Proof.
  apply Forall2_fmap_r, Forall_Forall2_diag, Forall_forall. intros d _. simpl.
  unfold paused_as. destruct (decide (dag_id d = k)); [|by repeat split].
  split; [apply setattr_same|done].
Qed.

Lemma paused_as_other_key k k' v (table : list DagModel) :
  k' ≠ k →
  filter (λ x, dag_id x = k') (paused_as k v <$> table)
  = filter (λ x, dag_id x = k') table.
Proof.
  intros Hk. induction table as [|d table IH]; [done|].
  rewrite fmap_cons, !filter_cons, paused_as_key, IH.
  destruct (decide (dag_id d = k')) as [Hd|]; [|done].
  unfold paused_as. by rewrite decide_False by congruence.
Qed.

Lemma get_dag_same_rows k s1 s2 :
  filter (λ x, dag_id x = k) (dag (view s1)) = filter (λ x, dag_id x = k) (dag (view s2)) →
  (get_dag k s1).1 = (get_dag k s2).1.
Proof.
  intros Hrows.
  unfold get_dag, Query.one_or_none, Query.all, get_session, mbind, M_bind, mret, M_ret.
  rewrite !rows_dag_id_eq, Hrows.
  by destruct (filter _ (dag (view s2))) as [|x [|y l]].
Qed.

Section patching_extras.

Context {Json : Type}.
Variable dag_schema_load : Json → string + gmap string value.

(** X12: an identifier that no row has is answered with [NotFound]
    whatever the document and the mask are: the document is not even
    validated; the session is as it was. *)
Theorem X12_patch_dag_absent k mask json s :
  (∀ x, x ∈ dag (view s) → dag_id x ≠ k) →
  patch_dag dag_schema_load k mask json s
  = (Raise (NotFound ("Dag with id: '" ++ k ++ "' not found") None), s).
Proof.
  intros Habs. unfold patch_dag, mbind, M_bind.
  by rewrite (one_or_none_absent s k Habs).
Qed.

(** X13: on a stored DAG a document the schema rejects is answered with
    [BadRequest], titled "Invalid Dag schema" and carrying the schema's
    messages, whatever the mask is, a mask that would itself be rejected
    included; the session is as it was. *)
Theorem X13_patch_dag_invalid_document k mask json s d messages :
  stored s k d →
  dag_schema_load json = inl messages →
  patch_dag dag_schema_load k mask json s
  = (Raise (BadRequest (Some "Invalid Dag schema") messages), s).
Proof.
  intros Hd Hload. unfold patch_dag, mbind, M_bind.
  by rewrite (one_or_none_stored s k d Hd), Hload.
Qed.

(** X14: the mask [["is_paused"]] and the empty mask change nothing: on
    every input, result and session are those of the call without a
    mask. *)
Theorem X14_patch_dag_mask_is_paused_redundant k json s :
  patch_dag dag_schema_load k (Some ["is_paused"]) json s
  = patch_dag dag_schema_load k None json s
  ∧ patch_dag dag_schema_load k (Some []) json s
    = patch_dag dag_schema_load k None json s.
Proof.
  split; [|reflexivity].
  unfold patch_dag, mbind, M_bind.
  destruct (Query.one_or_none _ s) as [[[d|]|e] s0]; [|done..].
  destruct (dag_schema_load json) as [messages|body]; [done|]. simpl.
  unfold getitem. destruct (body !! "is_paused") as [v|]; [|done]. simpl.
  by rewrite lookup_insert_eq.
Qed.

(** X15: a patch succeeds exactly when one row has the identifier, the
    schema accepts the document, the mask is absent, empty or
    [["is_paused"]], and the validated document has the key [is_paused];
    the payload is then the row with the document's value as [is_paused],
    and the session has that value assigned and committed. *)
Theorem X15_patch_dag_success_iff k mask json s r s' :
  patch_dag dag_schema_load k mask json s = (Return r, s')
  ↔ ∃ d body v,
      stored s k d ∧ dag_schema_load json = inr body
      ∧ (mask = None ∨ mask = Some [] ∨ mask = Some ["is_paused"])
      ∧ body !! "is_paused" = Some v
      ∧ r = dag_schema_dump (setattr_is_paused d v)
      ∧ s' = commit (assign_is_paused k v s).
Proof.
  split.
  - intros Hcall. apply patch_dag_cases in Hcall
      as [[_ [e ?]]|(d & body & v & ? & ? & ? & ? & ? & ?)]; [done|].
    exists d, body, v. by simplify_eq.
  - intros (d & body & v & Hd & Hload & Hmask & Hv & -> & ->).
    by apply (patch_dag_success _ _ _ _ _ _ body).
Qed.

(** X16: patching is idempotent: the same call made again on the session
    the first call left gives the same result and leaves that session. *)
Theorem X16_patch_dag_idempotent k mask json s :
  let first := patch_dag dag_schema_load k mask json s in
  patch_dag dag_schema_load k mask json first.2 = first.
Proof.
  intros first. unfold first.
  destruct (patch_dag dag_schema_load k mask json s) as [r s'] eqn:Hcall. simpl.
  pose proof Hcall as Hcases. apply patch_dag_cases in Hcases
    as [[-> _]|(d & body & v & Hd & Hload & Hmask & Hv & -> & ->)]; [done|].
  rewrite (patch_dag_success _ _ _ _ _ (setattr_is_paused d v) body v);
    [by rewrite assign_idem|by apply assign_stored|done..].
Qed.

(** X17: what a successful patch returns is what [get_dag] returns for
    the identifier afterwards. *)
Theorem X17_patch_dag_then_get_dag k mask json s r s' :
  patch_dag dag_schema_load k mask json s = (Return r, s') →
  get_dag k s' = (Return r, s').
Proof.
  intros Hcall. apply patch_dag_cases in Hcall
    as [[_ [e ?]]|(d & body & v & Hd & _ & _ & _ & ? & ->)]; [done|].
  simplify_eq. unfold get_dag, mbind, M_bind.
  by rewrite (one_or_none_stored _ k _ (assign_stored k v s d Hd)).
Qed.

(** X18: a patch, whatever its outcome, leaves what [get_dag] answers
    for any other identifier as it was. *)
Theorem X18_patch_dag_other_identifier k k' mask json s :
  k' ≠ k →
  (get_dag k' (patch_dag dag_schema_load k mask json s).2).1 = (get_dag k' s).1.
Proof.
  intros Hk.
  destruct (patch_dag dag_schema_load k mask json s) as [r s'] eqn:Hcall. simpl.
  apply patch_dag_cases in Hcall as [[-> _]|(d & body & v & _ & _ & _ & _ & _ & ->)];
    [done|].
  apply get_dag_same_rows. rewrite assign_view. by apply paused_as_other_key.
Qed.

End patching_extras.

Section patching_listing.

Context {User : Type} {Json : Type}.
Variable get_accessible_dag_ids : User → gset string.
Variable dag_schema_load : Json → string + gmap string value.

(** X19: a patch, whatever its outcome, does not change what is listed:
    [get_dags] afterwards reports the same [total_entries] and returns the
    same page, record for record, but for [is_paused] of the records with
    the patched identifier. *)
Theorem X19_patch_dag_keeps_listing
    k mask json limit offset tags dag_id_pattern only_active (user : User) s :
  let s' := (patch_dag dag_schema_load k mask json s).2 in
  ∃ page page' n,
    get_dags get_accessible_dag_ids limit offset tags dag_id_pattern only_active user s
    = (Return (dags_collection_schema_dump {| dags := page; total_entries := n |}), s)
    ∧ get_dags get_accessible_dag_ids limit offset tags dag_id_pattern only_active
        user s'
      = (Return (dags_collection_schema_dump {| dags := page'; total_entries := n |}),
         s')
    ∧ Forall2 (λ a b, same_but_is_paused a b ∧ (dag_id a ≠ k → a = b)) page page'.
Proof.
  intros s'. unfold s'.
  destruct (patch_dag dag_schema_load k mask json s) as [r s1] eqn:Hcall. simpl.
  apply patch_dag_cases in Hcall as [[-> _]|(d & body & v & _ & _ & _ & _ & _ & ->)].
  - eexists _, _, _. split; [apply get_dags_eq|]. split; [apply get_dags_eq|].
    apply Forall_Forall2_diag, Forall_forall. intros x _. by repeat split.
  - eexists _, (paused_as k v <$> _), _. split; [apply get_dags_eq|]. split.
    + rewrite get_dags_eq, assign_view.
      rewrite (filter_fmap_key (paused_as k v)); [|intros x; by rewrite paused_as_flags].
      by rewrite order_by_paused_as, length_fmap, fmap_take, fmap_drop.
    + apply paused_as_frame.
Qed.

End patching_listing.

(** ** Deleting and fetching *)

(** X20: [delete_dag] leaves the session exactly as the deletion routine
    left it, returns, and then [(NoContent, 204)], exactly when the routine
    returns, and never raises [DagNotFound] or any other
    [AirflowException] itself. *)
Theorem X20_delete_dag_outcome {Deleted} (routine : string → M Deleted) k s :
  (delete_dag routine k s).2 = (routine k s).2
  ∧ (∀ r, (delete_dag routine k s).1 = Return r
          ↔ r = NoContent 204 ∧ ∃ n, (routine k s).1 = Return n)
  ∧ (∀ e, (delete_dag routine k s).1 = Raise e →
          isinstance_AirflowException e = false).
Proof.
  destruct (routine k s) as [[n|e] s'] eqn:Hr.
  - rewrite (delete_dag_returns _ _ _ _ _ Hr). simpl. split; [done|]. split.
    + intros r. split; [intros [= <-]; eauto|by intros [-> _]].
    + by intros e.
  - rewrite (delete_dag_raises _ _ _ _ _ Hr). simpl. split; [done|]. split.
    + intros r. split; [|by intros [_ [n ?]]].
      destruct (isinstance_DagNotFound e); [done|].
      by destruct (isinstance_AirflowException e).
    + intros e'. destruct (isinstance_DagNotFound e); [by intros [= <-]|].
      destruct (isinstance_AirflowException e) eqn:He; by intros [= <-].
Qed.

(** X21: an exception of the deletion routine that is no
    [AirflowException] passes through [delete_dag] as it is. *)
Theorem X21_delete_dag_other_exception
    {Deleted} (routine : string → M Deleted) k s e s' :
  routine k s = (Raise e, s') →
  isinstance_AirflowException e = false →
  delete_dag routine k s = (Raise e, s').
Proof.
  intros Hr He. rewrite (delete_dag_raises _ _ _ _ _ Hr).
  destruct e; simpl in *; done.
Qed.

(** X22: [get_dag] leaves the session as it is; it returns a record
    exactly when that record is the one row with the identifier, whether
    subdag, inactive or paused; it raises [NotFound] exactly when no row
    has the identifier. *)
Theorem X22_get_dag_outcome k s :
  (get_dag k s).2 = s
  ∧ (∀ d, (get_dag k s).1 = Return (dag_schema_dump d) ↔ stored s k d)
  ∧ ((get_dag k s).1
     = Raise (NotFound "DAG not found"
                (Some ("The DAG with dag_id: " ++ k ++ " was not found")))
     ↔ ∀ x, x ∈ dag (view s) → dag_id x ≠ k).
Proof.
  unfold get_dag, Query.one_or_none, Query.all, get_session, mbind, M_bind, mret, M_ret,
    stored.
  rewrite rows_dag_id_eq.
  destruct (filter (λ x, dag_id x = k) (dag (view s))) as [|x [|y l]] eqn:Hrows; simpl.
  - split; [done|]. split; [done|]. split; [|done]. intros _ x Hx Hk.
    assert (x ∈ filter (λ x, dag_id x = k) (dag (view s))) as Hin
      by (by apply list_elem_of_filter).
    rewrite Hrows in Hin. by apply not_elem_of_nil in Hin.
  - assert (x ∈ dag (view s) ∧ dag_id x = k) as [Hx Hk].
    { assert (x ∈ filter (λ x, dag_id x = k) (dag (view s))) as Hin
        by (rewrite Hrows; by left).
      apply list_elem_of_filter in Hin. tauto. }
    split; [done|]. split; [intros d; split; by intros [= ->]|].
    split; [done|]. intros Habs. by destruct (Habs x).
  - assert (x ∈ dag (view s) ∧ dag_id x = k) as [Hx Hk].
    { assert (x ∈ filter (λ x, dag_id x = k) (dag (view s))) as Hin
        by (rewrite Hrows; by left).
      apply list_elem_of_filter in Hin. tauto. }
    split; [done|]. split; [done|].
    split; [done|]. intros Habs. by destruct (Habs x).
Qed.

(** X23: [get_dag_details] answers from the DAG bag alone: it raises
    [NotFound] exactly when the bag has no workflow for the identifier,
    with the title and detail that [get_dag] gives an identifier without a
    row, and returns the bag's workflow otherwise; so an identifier with a
    row but without a parsed workflow is found by [get_dag] and not by
    [get_dag_details]. *)
Theorem X23_get_dag_details_outcome {DAG} (bag : string → option DAG) k :
  (get_dag_details bag k
   = Raise (NotFound "DAG not found"
              (Some ("The DAG with dag_id: " ++ k ++ " was not found")))
   ↔ bag k = None)
  ∧ (∀ dag, get_dag_details bag k = Return (dag_detail_schema_dump dag)
            ↔ bag k = Some dag)
  ∧ (∀ s d, stored s k d → bag k = None →
       (get_dag k s).1 = Return (dag_schema_dump d)
       ∧ ∃ e, get_dag_details bag k = Raise e ∧ classified e = true)
  ∧ (∀ s, (∀ x, x ∈ dag (view s) → dag_id x ≠ k) → bag k = None →
       ∃ e, (get_dag k s).1 = Raise e ∧ get_dag_details bag k = Raise e).
Proof.
  unfold get_dag_details. split; [|split; [|split]].
  - destruct (bag k); split; done.
  - intros dag. destruct (bag k); split; intros H; by simplify_eq.
  - intros s d Hd ->. split; [|eauto].
    unfold get_dag, mbind, M_bind. by rewrite (one_or_none_stored s k d Hd).
  - intros s Habs ->. eexists. split; [|done]. by rewrite get_dag_absent.
Qed.

(** ** The further properties on the example registry *)


(** X6 on the example registry: the same two tags, reordered and
    repeated. *)
Lemma X6_witness :
  get_dags example_accessible 10 0 (Some ["etl"; "ml"]) None true tt example_session
  = get_dags example_accessible 10 0 (Some ["ml"; "etl"; "ml"]) None true tt
      example_session.
Proof.
  apply (X6_get_dags_tags_as_set example_accessible 10 0 ["etl"; "ml"]
           ["ml"; "etl"; "ml"] None true tt example_session).
  intros tag. rewrite !elem_of_cons, !elem_of_nil. tauto.
Defined.

(** X8 on the example registry, for a user who may read nothing. *)
Lemma X8_witness :
  get_dags example_no_access 10 0 None None false tt example_session
  = (Return (dags_collection_schema_dump {| dags := []; total_entries := 0 |}),
     example_session).
Proof.
  apply (X8_get_dags_nothing_accessible example_no_access 10 0 None None false tt
           example_session).
  reflexivity.
Defined.

(** X9 on the example registry: every listed record is fetched by
    [get_dag]. *)
Lemma X9_witness :
  ∃ page n,
    get_dags example_accessible 10 0 None None true tt example_session
    = (Return (dags_collection_schema_dump {| dags := page; total_entries := n |}),
       example_session)
    ∧ ∀ d, d ∈ page →
           get_dag (dag_id d) example_session
           = (Return (dag_schema_dump d), example_session).
Proof.
  apply (X9_get_dags_listed_is_fetchable example_accessible 10 0 None None true tt
           example_session).
  apply (bool_decide_unpack _). vm_compute. exact I.
Defined.

(** X10 on the example registry: the pattern [LPH]. *)
Lemma X10_witness :
  ∃ matched,
    get_dags example_accessible 10 0 None (Some "LPH") true tt example_session
    = (Return (dags_collection_schema_dump
         {| dags := take 10 (drop 0 (merge_sort dag_id_le matched));
            total_entries := length matched |}), example_session)
    ∧ ∀ d, d ∈ matched ↔
           d ∈ dag (view example_session)
           ∧ satisfies_filters None None true (example_accessible tt) d
           ∧ contains_ci (dag_id d) "LPH".
Proof.
  apply (X10_get_dags_pattern_contains example_accessible 10 0 None "LPH" true tt
           example_session).
  unfold literal. simpl. repeat constructor; discriminate.
Defined.

(** X11 on the example registry: [ALPHA] and [alpha]. *)
Lemma X11_witness :
  get_dags example_accessible 10 0 None (Some "ALPHA") true tt example_session
  = get_dags example_accessible 10 0 None (Some "alpha") true tt example_session.
Proof.
  apply (X11_get_dags_pattern_case example_accessible 10 0 None "ALPHA" "alpha" true tt
           example_session).
  reflexivity.
Defined.

(** X12 on the example registry: no row has the identifier [delta]; the
    document would be rejected, and so would the mask. *)
Lemma X12_witness :
  patch_dag example_strict_load "delta" (Some ["name"; "owners"])
    {[ "is_paused" := VStr "yes" ]} example_session
  = (Raise (NotFound "Dag with id: 'delta' not found" None), example_session).
Proof.
  apply (X12_patch_dag_absent example_strict_load "delta" (Some ["name"; "owners"])
           {[ "is_paused" := VStr "yes" ]} example_session).
  intros x Hx.
  repeat (apply elem_of_cons in Hx as [->|Hx]; [by vm_compute|]).
  by apply not_elem_of_nil in Hx.
Defined.

(** X13 on the example registry: a document with a string for
    [is_paused], and a mask that names another field. *)
Lemma X13_witness :
  patch_dag example_strict_load "alpha" (Some ["name"])
    {[ "is_paused" := VStr "yes" ]} example_session
  = (Raise (BadRequest (Some "Invalid Dag schema")
              "{'is_paused': ['Not a valid boolean.']}"), example_session).
Proof.
  apply (X13_patch_dag_invalid_document example_strict_load "alpha" (Some ["name"])
           {[ "is_paused" := VStr "yes" ]} example_session example_alpha).
  - reflexivity.
  - reflexivity.
Defined.

(** X17 on the example registry: pausing [alpha], then fetching it. *)
Lemma X17_witness :
  get_dag "alpha" (commit (assign_is_paused "alpha" (VBool true) example_session))
  = (Return (dag_schema_dump (setattr_is_paused example_alpha (VBool true))),
     commit (assign_is_paused "alpha" (VBool true) example_session)).
Proof.
  apply (X17_patch_dag_then_get_dag example_load "alpha" None
           {[ "is_paused" := VBool true ]} example_session).
  reflexivity.
Defined.

(** X18 on the example registry: pausing [alpha] and fetching [beta]. *)
Lemma X18_witness :
  (get_dag "beta"
     (patch_dag example_load "alpha" None {[ "is_paused" := VBool true ]}
        example_session).2).1
  = (get_dag "beta" example_session).1.
Proof.
  apply (X18_patch_dag_other_identifier example_load "alpha" "beta" None
           {[ "is_paused" := VBool true ]} example_session).
  discriminate.
Defined.

(** X21 on the example registry: a routine that raises
    [MultipleResultsFound]. *)
Lemma X21_witness :
  delete_dag example_broken_routine "alpha" example_session
  = (Raise MultipleResultsFound, example_session).
Proof.
  apply (X21_delete_dag_other_exception example_broken_routine "alpha" example_session
           MultipleResultsFound example_session).
  - reflexivity.
  - reflexivity.
Defined.

(** X23 on the example registry: [alpha] has a row and no parsed
    workflow. *)
Lemma X23_witness :
  (get_dag "alpha" example_session).1 = Return (dag_schema_dump example_alpha)
  ∧ ∃ e, get_dag_details example_bag "alpha" = Raise e ∧ classified e = true.
Proof.
  destruct (X23_get_dag_details_outcome example_bag "alpha") as (_ & _ & Hrow & _).
  apply (Hrow example_session example_alpha); reflexivity.
Defined.
